(** * FreshMart admin portal: a shallow embedding of the portal's code

  The development follows the JavaScript sources of the admin portal:

  - [Auth]      : admin/js/auth.js        (role resolution, route guard)
  - [Functions] : functions/index.js      (callable admin-management functions)
  - [JS], [Firestore] : the built-ins and the snapshot objects the pages use
  - [Orders]    : the orders page module  (status changes, statistics,
                  filters, pagination, snapshot listener, CSV export)
  - [Users]     : the users page module   (snapshot listener, CSV export)
  - [Dashboard] : admin/js/dashboard.js   (order statistics)

  The modules [OrdersSpec], [ListenerSpec] and [CsvSpec] hold the notions
  the properties are stated with; the properties follow, one section per
  subject.

  Strings are [string]; a missing or empty JavaScript string field is the
  empty string (both are falsy and the sources only ever test truthiness
  or compare with non-empty literals).  Firestore collections keyed by
  document id are [gmap string _]; arrays are lists.  Monetary amounts and
  instants (milliseconds since the epoch) are integers. *)

From Stdlib Require Import ZArith List String Ascii Bool Lia.
From stdpp Require Import base option list gmap strings pretty.

Local Open Scope string_scope.
Local Open Scope Z_scope.

(** JavaScript's [===] on two strings. *)
Notation "a === b" := (String.eqb a b) (at level 70, no associativity).
Notation "a !== b" := (negb (String.eqb a b)) (at level 70, no associativity).

(** Truthiness of a string value: only the empty string is falsy. *)
Definition truthy (s : string) : bool := negb (s === "").

(* ====================================================================== *)
(** ** admin/js/auth.js *)
(* ====================================================================== *)

Module Auth.

(** [ROLES] *)
Definition SUPER_ADMIN : string := "super_admin".
Definition ADMIN : string := "admin".

(** A signed-in Firebase identity as seen by the portal.  [claims_role] is
    the [role] custom claim the identity provider holds for the identity
    ([None] when the claim is absent or is not a string);
    [token_refresh_ok] tells whether [getIdTokenResult(true)] resolves
    (it rejects, for instance, when the network is down). *)
Record FirebaseUser : Type := mkUser {
  uid : string;
  email : string;
  claims_role : option string;
  token_refresh_ok : bool
}.

(** Outcome of [await user.getIdTokenResult(true)]. *)
Inductive Awaited (A : Type) : Type :=
| Resolved (a : A)
| Rejected.
Arguments Resolved {A} a.
Arguments Rejected {A}.

Definition getIdTokenResult (user : FirebaseUser) : Awaited (option string) :=
  if token_refresh_ok user then Resolved (claims_role user) else Rejected.

(** The object returned by [checkAdminRole]. *)
Record AdminData : Type := mkAdminData {
  ad_uid : string;
  ad_email : string;
  ad_role : string;
  isSuperAdmin : bool
}.

(** [role === ROLES.X] where [role] may be undefined. *)
Definition role_is (role : option string) (r : string) : bool :=
  match role with
  | Some s => s === r
  | None => false
  end.

(** [checkAdminRole(user)]; [None] is JavaScript's [null]. *)
Definition checkAdminRole (user : option FirebaseUser) : option AdminData :=
  match user with
  | None => None
  | Some u =>
      match getIdTokenResult u with
      | Resolved role =>
          if role_is role SUPER_ADMIN || role_is role ADMIN then
            Some {| ad_uid := uid u;
                    ad_email := email u;
                    ad_role := default "" role;
                    isSuperAdmin := role_is role SUPER_ADMIN |}
          else None
      | Rejected => None   (* catch (error) { ...; return null; } *)
      end
  end.

(** What the route guard does, in order. *)
Inductive Effect : Type :=
| SignOut                              (* await signOut(auth) *)
| Redirect (href : string)             (* window.location.href = href *)
| Callback (adminData : AdminData).    (* callback(adminData) *)

(** The [onAuthStateChanged] handler installed by [protectRoute(callback)];
    [has_callback] tells whether a callback was passed. *)
Definition protectRoute (has_callback : bool) (user : option FirebaseUser)
  : list Effect :=
  match user with
  | None => [Redirect "login.html"]
  | Some _ =>
      match checkAdminRole user with
      | None => [SignOut; Redirect "login.html"]
      | Some adminData => if has_callback then [Callback adminData] else []
      end
  end.

End Auth.

(* ====================================================================== *)
(** ** functions/index.js *)
(* ====================================================================== *)

Module Functions.

(** The codes of [functions.https.HttpsError] used by the file. *)
Inductive ErrorCode : Type :=
| unauthenticated
| permission_denied
| invalid_argument
| failed_precondition
| already_exists
| internal.

(** The [code] property of an [HttpsError], as the string JavaScript sees. *)
Definition code_string (c : ErrorCode) : string :=
  match c with
  | unauthenticated => "unauthenticated"
  | permission_denied => "permission-denied"
  | invalid_argument => "invalid-argument"
  | failed_precondition => "failed-precondition"
  | already_exists => "already-exists"
  | internal => "internal"
  end.

(** What can be thrown: an [HttpsError] built by the file, or an error of
    the Admin SDK (such as [auth/user-not-found]). *)
Inductive Exn : Type :=
| HttpsError (code : ErrorCode) (message : string)
| SdkError (code : string) (message : string).

Definition exn_code (e : Exn) : string :=
  match e with
  | HttpsError c _ => code_string c
  | SdkError c _ => c
  end.

Definition exn_message (e : Exn) : string :=
  match e with
  | HttpsError _ m => m
  | SdkError _ m => m
  end.

(** A document of the [admins] collection. *)
Record AdminDoc : Type := mkAdminDoc {
  name : string;
  email : string;
  role : string;
  createdBy : string;
  disabled : bool;
  updatedAt : option Z;
  updatedBy : string
}.

(** An account of the identity provider (Firebase Auth). *)
Record AuthRecord : Type := mkAuthRecord {
  au_email : string;
  au_disabled : bool
}.

(** The state the callable functions act on. *)
Record Backend : Type := mkBackend {
  admins : gmap string AdminDoc;        (* db.collection('admins') *)
  authUsers : gmap string AuthRecord;   (* admin.auth() *)
  serverTimestamp : Z                   (* FieldValue.serverTimestamp() *)
}.

(** [context.auth] of a callable invocation: the caller's uid and the [role]
    claim of the ID token presented with the call. *)
Record AuthContext : Type := mkAuthContext {
  uid : string;
  token_role : option string
}.

Record CallableContext : Type := mkContext {
  auth : option AuthContext
}.

Inductive Result (A : Type) : Type :=
| Ok (a : A)
| Throw (e : Exn).
Arguments Ok {A} a.
Arguments Throw {A} e.

(** Computations over the backend that may throw; the state reached before
    a throw is kept, as writes already made are not undone. *)
Definition M (A : Type) : Type := Backend -> Result A * Backend.

#[global] Instance M_ret : MRet M := fun A a s => (Ok a, s).

#[global] Instance M_bind : MBind M := fun A B k m s =>
  match m s with
  | (Ok a, s') => k a s'
  | (Throw e, s') => (Throw e, s')
  end.

Definition throw {A : Type} (e : Exn) : M A := fun s => (Throw e, s).

(** [try { body } catch (error) { handler }] *)
Definition try_catch {A : Type} (body : M A) (handler : Exn -> M A) : M A :=
  fun s =>
    match body s with
    | (Ok a, s') => (Ok a, s')
    | (Throw e, s') => handler e s'
    end.

(** [if (cond) throw e;] *)
Definition throw_if (cond : bool) (e : Exn) : M unit :=
  if cond then throw e else mret tt.

(** *** The Admin SDK calls the file makes *)

(** [auth.updateUser(uid, { disabled })] *)
Definition auth_updateUser (id : string) (disable : bool) : M unit := fun s =>
  match authUsers s !! id with
  | None => (Throw (SdkError "auth/user-not-found" "no user record"), s)
  | Some r =>
      (Ok tt, mkBackend (admins s)
                (<[id := mkAuthRecord (au_email r) disable]> (authUsers s))
                (serverTimestamp s))
  end.

(** [auth.deleteUser(uid)] *)
Definition auth_deleteUser (id : string) : M unit := fun s =>
  match authUsers s !! id with
  | None => (Throw (SdkError "auth/user-not-found" "no user record"), s)
  | Some _ =>
      (Ok tt,
       mkBackend (admins s) (delete id (authUsers s)) (serverTimestamp s))
  end.

(** [db.collection('admins').doc(id).get()] *)
Definition admins_get (id : string) : M (option AdminDoc) := fun s =>
  (Ok (admins s !! id), s).

(** [db.collection('admins').doc(id).update(f)]: fails on a missing
    document. *)
Definition admins_update (id : string) (f : AdminDoc -> AdminDoc) : M unit :=
  fun s =>
    match admins s !! id with
    | None => (Throw (SdkError "not-found" "no document to update"), s)
    | Some d =>
        (Ok tt, mkBackend (<[id := f d]> (admins s)) (authUsers s)
                  (serverTimestamp s))
    end.

(** [db.collection('admins').doc(id).delete()]: succeeds on a missing
    document. *)
Definition admins_delete (id : string) : M unit := fun s =>
  (Ok tt, mkBackend (delete id (admins s)) (authUsers s) (serverTimestamp s)).

(** The documents selected by
    [.where('role', '==', 'super_admin').where('disabled', '==', false)]. *)
Definition active_super_admin (d : AdminDoc) : Prop :=
  role d = "super_admin" /\ disabled d = false.

#[global] Instance active_super_admin_dec d : Decision (active_super_admin d).
Proof. unfold active_super_admin. apply _. Defined.

Definition active_super_admins (m : gmap string AdminDoc)
  : gmap string AdminDoc :=
  filter (fun kv => active_super_admin kv.2) m.

Definition query_active_super_admins : M (gmap string AdminDoc) := fun s =>
  (Ok (active_super_admins (admins s)), s).

Definition now : M Z := fun s => (Ok (serverTimestamp s), s).

(** *** The callable functions *)

Definition role_is (r : option string) (x : string) : bool :=
  match r with
  | Some s => s === x
  | None => false
  end.

(** [verifySuperAdmin(context)] *)
Definition verifySuperAdmin (context : CallableContext) : M bool :=
  match auth context with
  | None => throw (HttpsError unauthenticated "User must be authenticated")
  | Some a =>
      if negb (role_is (token_role a) "super_admin") then
        throw (HttpsError permission_denied
                 "Only super admins can perform this action")
      else mret true
  end.

(** [context.auth.uid], read after [verifySuperAdmin] has returned. *)
Definition caller_uid (context : CallableContext) : string :=
  match auth context with
  | Some a => uid a
  | None => ""
  end.

Record Response : Type := mkResponse {
  success : bool;
  message : string
}.

Record ToggleData : Type := mkToggleData {
  tg_adminId : string;
  tg_disable : bool
}.

(** [exports.toggleAdminStatus] *)
Definition toggleAdminStatus (data : ToggleData) (context : CallableContext)
  : M Response :=
  _ ← verifySuperAdmin context;
  let adminId := tg_adminId data in
  let disable := tg_disable data in
  throw_if (negb (truthy adminId))
    (HttpsError invalid_argument "Admin ID is required");;
  (* Prevent disabling yourself *)
  throw_if (adminId === caller_uid context)
    (HttpsError invalid_argument "Cannot disable your own account");;
  try_catch
    ((* Update Firebase Auth user *)
     auth_updateUser adminId disable;;
     (* Update Firestore *)
     t ← now;
     admins_update adminId (fun d =>
       mkAdminDoc (name d) (email d) (role d) (createdBy d)
         disable (Some t) (caller_uid context));;
     mret (mkResponse true
             ("Admin " +:+ (if disable then "disabled" else "enabled")
                +:+ " successfully")))
    (fun error => throw (HttpsError internal (exn_message error))).

Record DeleteData : Type := mkDeleteData {
  del_adminId : string
}.

(** [exports.deleteAdmin] *)
Definition deleteAdmin (data : DeleteData) (context : CallableContext)
  : M Response :=
  _ ← verifySuperAdmin context;
  let adminId := del_adminId data in
  throw_if (negb (truthy adminId))
    (HttpsError invalid_argument "Admin ID is required");;
  (* Prevent deleting yourself *)
  throw_if (adminId === caller_uid context)
    (HttpsError invalid_argument "Cannot delete your own account");;
  try_catch
    ((* Check if target is super_admin *)
     adminDoc ← admins_get adminId;
     match adminDoc with
     | Some d =>
         if role d === "super_admin" then
           (* Count remaining super_admins *)
           superAdmins ← query_active_super_admins;
           throw_if (bool_decide (size superAdmins ≤ 1)%nat)
             (HttpsError failed_precondition
                "Cannot delete the last super admin")
         else mret tt
     | None => mret tt
     end;;
     (* Delete from Firebase Auth *)
     auth_deleteUser adminId;;
     (* Delete from Firestore *)
     admins_delete adminId;;
     mret (mkResponse true "Admin deleted successfully"))
    (fun error =>
       if exn_code error === "auth/user-not-found" then
         admins_delete adminId;;
         mret (mkResponse true "Admin deleted from database")
       else throw (HttpsError internal (exn_message error))).

(** What a call hands to the client, and the state it leaves behind. *)
Definition outcome {A : Type} (r : Result A * Backend) : Result A := r.1.
Definition after {A : Type} (r : Result A * Backend) : Backend := r.2.

(** The number of enabled super admin records. *)
Definition count_active_supers (s : Backend) : nat :=
  size (active_super_admins (admins s)).

End Functions.

(* ====================================================================== *)
(** ** The JavaScript built-ins the pages use *)
(* ====================================================================== *)

Module JS.

(** [toLowerCase] on one character: the letters A to Z move to a to z. *)
Definition lower_ascii (c : ascii) : ascii :=
  let n := nat_of_ascii c in
  if ((65 <=? n) && (n <=? 90))%nat then ascii_of_nat (n + 32) else c.

(** [String.prototype.toLowerCase] (exact on ASCII text; bytes of other
    characters are left as they are). *)
Fixpoint toLowerCase (s : string) : string :=
  match s with
  | EmptyString => EmptyString
  | String c s' => String (lower_ascii c) (toLowerCase s')
  end.

(** The white space removed by [trim], within ASCII: space, tab, line feed,
    vertical tab, form feed and carriage return. *)
Definition is_white_space (c : ascii) : bool :=
  let n := nat_of_ascii c in
  ((n =? 32) || ((9 <=? n) && (n <=? 13)))%nat.

Fixpoint trimStart (s : string) : string :=
  match s with
  | EmptyString => EmptyString
  | String c s' => if is_white_space c then trimStart s' else s
  end.

Fixpoint trimEnd (s : string) : string :=
  match s with
  | EmptyString => EmptyString
  | String c s' =>
      let t := trimEnd s' in
      if is_white_space c && (t === "") then EmptyString else String c t
  end.

(** [String.prototype.trim] *)
Definition trim (s : string) : string := trimEnd (trimStart s).

(** [s.includes(sub)]: [sub] occurs in [s] at some position. *)
Fixpoint includes (s sub : string) : bool :=
  String.prefix sub s ||
  match s with
  | EmptyString => false
  | String _ s' => includes s' sub
  end.

(** [Array.prototype.slice(start, end)], with its treatment of negative
    and out-of-range indices. *)
Definition slice {A : Type} (l : list A) (start end_ : Z) : list A :=
  let len := Z.of_nat (length l) in
  let k := if start <? 0 then Z.max (len + start) 0 else Z.min start len in
  let final := if end_ <? 0 then Z.max (len + end_) 0 else Z.min end_ len in
  take (Z.to_nat (final - k)) (drop (Z.to_nat k) l).

(** The characters the CSV templates are built from: the double quote, the
    line feed, the byte order mark (U+FEFF, in UTF-8) and the rupee sign
    (U+20B9, in UTF-8). *)
Definition dquote : string := String (ascii_of_nat 34) EmptyString.
Definition newline : string := String (ascii_of_nat 10) EmptyString.
Definition BOM : string :=
  String (ascii_of_nat 239) (String (ascii_of_nat 187)
    (String (ascii_of_nat 191) EmptyString)).
Definition rupee : string :=
  String (ascii_of_nat 226) (String (ascii_of_nat 130)
    (String (ascii_of_nat 185) EmptyString)).

(** One line of the CSV templates: every interpolated value between double
    quotes, the values separated by commas, and a line feed at the end. *)
Definition quoted (v : string) : string := dquote +:+ v +:+ dquote.

Definition csv_line (cells : list string) : string :=
  String.concat "," (quoted <$> cells) +:+ newline.

(** A file handed to the browser for download. *)
Record Download : Type := mkDownload {
  filename : string;
  content : string
}.

End JS.

(* ====================================================================== *)
(** ** What the pages share: toasts and Firestore snapshots *)
(* ====================================================================== *)

(** A call [showToast(message, type)]. *)
Inductive Toast : Type :=
| mkToast (message : string) (type : string).

Module Firestore.

Inductive ChangeType : Type :=
| added
| modified
| removed.

#[global] Instance ChangeType_eq_dec : EqDecision ChangeType.
Proof. solve_decision. Defined.

(** An element of [snapshot.docChanges()]. *)
Record DocChange (D : Type) : Type := mkChange {
  change_type : ChangeType;
  change_doc : D
}.
Arguments mkChange {D} _ _.
Arguments change_type {D} _.
Arguments change_doc {D} _.

(** A query snapshot handed to an [onSnapshot] callback: the documents of
    the whole result set, and the changes since the previous snapshot. *)
Record QuerySnapshot (D : Type) : Type := mkSnapshot {
  docs : list D;
  docChanges : list (DocChange D)
}.
Arguments mkSnapshot {D} _ _.
Arguments docs {D} _.
Arguments docChanges {D} _.

(** [change.type === 'added'] *)
Definition is_added {D : Type} (c : DocChange D) : bool :=
  bool_decide (change_type c = added).

End Firestore.

(* ====================================================================== *)
(** ** The orders page module *)
(* ====================================================================== *)

Module Orders.

(** [order.address] *)
Record Address : Type := mkAddress {
  a_name : string;
  a_phone : string;
  a_email : string;
  a_address : string;
  a_city : string;
  a_pincode : string;
  a_state : string
}.

Record Item : Type := mkItem {
  i_name : string;
  i_price : Z;
  i_quantity : Z
}.

(** An element of [order.statusHistory]. *)
Record HistoryEntry : Type := mkHistoryEntry {
  h_status : string;
  h_timestamp : string;
  h_message : string;
  h_updatedBy : string
}.

#[global] Instance HistoryEntry_eq_dec : EqDecision HistoryEntry.
Proof. solve_decision. Defined.

(** [order.createdAt] as the page reads it through
    [order.createdAt ? new Date(order.createdAt) : null]: absent (or falsy),
    present but not a date ([new Date] gives an Invalid Date, whose
    comparisons are all false), or an instant in milliseconds. *)
Inductive CreatedAt : Type :=
| NoDate
| InvalidDate
| DateMs (ms : Z).

(** An order document together with its id.  [total] is 0 when the field
    is missing (the page always reads [order.total || 0]); [items] is empty
    when the field is missing. *)
Record Order : Type := mkOrder {
  id : string;
  items : list Item;
  total : Z;
  paymentMethod : string;
  address : option Address;
  status : string;
  statusHistory : list HistoryEntry;
  createdAt : CreatedAt;
  updatedAt : string
}.

(** *** Status changes *)

(** [formatStatus(status)] *)
Definition formatStatus (status : string) : string :=
  if status === "confirmed" then "Confirmed"
  else if status === "packed" then "Packed"
  else if status === "out_for_delivery" then "Out for Delivery"
  else if status === "delivered" then "Delivered"
  else if status === "cancelled" then "Cancelled"
  else status.

(** The [changeStatus(orderId, X)] buttons that [viewOrder] renders for an
    order: the list of the target statuses [X], in the order of the
    template. *)
Definition statusActions (order : Order) : list string :=
  if status order !== "cancelled" then
    if status order !== "delivered" then
      (if status order === "confirmed" then ["packed"] else []) ++
      (if status order === "packed" then ["out_for_delivery"] else []) ++
      (if status order === "out_for_delivery" then ["delivered"] else []) ++
      ["cancelled"]
    else []
  else [].

(** [arrayUnion(entry)] applied to an array field: the entry is added
    unless an equal element is already there. *)
Definition arrayUnion (entry : HistoryEntry) (l : list HistoryEntry)
  : list HistoryEntry :=
  if bool_decide (entry ∈ l) then l else l ++ [entry].

(** What [changeStatus] reads from its surroundings: the answer to the
    [confirm] dialog, the value of [new Date().toISOString()], and whether
    the remote store accepts the write. *)
Record StatusEnv : Type := mkStatusEnv {
  confirm_answer : bool;
  nowISO : string;
  remote_ok : bool
}.

(** [updateDoc(doc(db, 'orders', orderId), f)]: rejects when the document
    does not exist or the store refuses the write. *)
Definition updateDoc (remote_ok : bool) (orderId : string)
    (f : Order -> Order) (store : gmap string Order)
  : option (gmap string Order) :=
  match store !! orderId with
  | Some o => if remote_ok then Some (<[orderId := f o]> store) else None
  | None => None
  end.

Record StatusResult : Type := mkStatusResult {
  sr_store : gmap string Order;
  sr_toasts : list Toast;
  sr_modal_closed : bool
}.

(** [window.changeStatus(orderId, newStatus)], with [adminEmail] the value
    of [currentAdmin.email]. *)
Definition changeStatus (adminEmail : string) (env : StatusEnv)
    (orderId newStatus : string) (store : gmap string Order) : StatusResult :=
  if negb (confirm_answer env) then mkStatusResult store [] false
  else
    let starting := mkToast "Updating status..." "info" in
    let historyEntry :=
      mkHistoryEntry newStatus (nowISO env)
        ("Order " +:+ formatStatus newStatus +:+ " by admin") adminEmail in
    let update (o : Order) :=
      mkOrder (id o) (items o) (total o) (paymentMethod o) (address o)
        newStatus (arrayUnion historyEntry (statusHistory o))
        (createdAt o) (nowISO env) in
    match updateDoc (remote_ok env) orderId update store with
    | Some store' =>
        mkStatusResult store'
          [starting;
           mkToast ("Order " +:+ formatStatus newStatus +:+ " successfully!")
             "success"]
          true
    | None =>
        mkStatusResult store
          [starting; mkToast "Failed to update status" "error"] false
    end.

(** *** Statistics *)

(** The instants the page derives from the clock: [new Date()] with
    [setHours(0, 0, 0, 0)], with [setDate(now.getDate() - 7)] and with
    [setMonth(now.getMonth() - 1)], in milliseconds. *)
Record Clock : Type := mkClock {
  startOfToday : Z;
  sevenDaysAgo : Z;
  oneMonthAgo : Z
}.

(** [orderDate && orderDate >= start] *)
Definition on_or_after (d : CreatedAt) (start : Z) : bool :=
  match d with
  | DateMs ms => start <=? ms
  | InvalidDate => false
  | NoDate => false
  end.

(** [['confirmed', 'packed', 'out_for_delivery'].includes(status)] *)
Definition is_pending (s : string) : bool :=
  existsb (fun x => x === s) ["confirmed"; "packed"; "out_for_delivery"].

Record Stats : Type := mkStats {
  totalOrders : Z;
  pendingOrders : Z;
  deliveredOrders : Z;
  todayRevenue : Z
}.

(** The body of the [allOrders.forEach] loop of [updateStats]. *)
Definition updateStats_step (today : Z) (acc : Stats) (order : Order) : Stats :=
  let totalOrders := totalOrders acc + 1 in
  let pendingOrders :=
    if is_pending (status order) then pendingOrders acc + 1
    else pendingOrders acc in
  let deliveredOrders :=
    if status order === "delivered" then deliveredOrders acc + 1
    else deliveredOrders acc in
  let todayRevenue :=
    if on_or_after (createdAt order) today && (status order !== "cancelled")
    then todayRevenue acc + total order
    else todayRevenue acc in
  mkStats totalOrders pendingOrders deliveredOrders todayRevenue.

(** [updateStats()]: the four numbers written to the page. *)
Definition updateStats (clock : Clock) (allOrders : list Order) : Stats :=
  fold_left (updateStats_step (startOfToday clock)) allOrders
    (mkStats 0 0 0 0).

(** *** Filters and pagination *)

(** The values of the three filter controls of the page. *)
Record FilterInputs : Type := mkFilterInputs {
  searchInput : string;
  statusFilter : string;
  dateFilter : string
}.

(** The module-level state of the page; [shownStats] is what [updateStats]
    last wrote to the page. *)
Record Page : Type := mkPage {
  allOrders : list Order;
  filteredOrders : list Order;
  currentPage : Z;
  shownStats : Stats
}.

Definition itemsPerPage : Z := 10.

(** [order.address?.field && test(order.address.field)] *)
Definition address_field_matches (order : Order) (field : Address -> string)
    (test : string -> bool) : bool :=
  match address order with
  | Some a => truthy (field a) && test (field a)
  | None => false
  end.

Definition matchesSearch (search : string) (order : Order) : bool :=
  negb (truthy search)
  || JS.includes (JS.toLowerCase (id order)) search
  || address_field_matches order a_name
       (fun v => JS.includes (JS.toLowerCase v) search)
  || address_field_matches order a_phone
       (fun v => JS.includes v search)
  || address_field_matches order a_email
       (fun v => JS.includes (JS.toLowerCase v) search).

Definition matchesStatus (status_ : string) (order : Order) : bool :=
  negb (truthy status_) || (status order === status_).

Definition matchesDate (dateFilter_ : string) (clock : Clock) (order : Order)
  : bool :=
  if truthy dateFilter_ && (dateFilter_ !== "all") then
    match createdAt order with
    | NoDate => true           (* matchesDate keeps its initial value *)
    | orderDate =>
        if dateFilter_ === "today" then
          on_or_after orderDate (startOfToday clock)
        else if dateFilter_ === "week" then
          on_or_after orderDate (sevenDaysAgo clock)
        else if dateFilter_ === "month" then
          on_or_after orderDate (oneMonthAgo clock)
        else true
    end
  else true.

(** The rows [renderTable] puts in the table and the number of pages it
    hands to [renderPagination]. *)
Record Table : Type := mkTable {
  rows : list Order;
  totalPages : Z
}.

(** [renderTable()] *)
Definition renderTable (page : Page) : Table :=
  let len := Z.of_nat (length (filteredOrders page)) in
  if len =? 0 then mkTable [] 0
  else
    let totalPages := (len + itemsPerPage - 1) / itemsPerPage in
    let start := (currentPage page - 1) * itemsPerPage in
    let end_ := Z.min (start + itemsPerPage) len in
    mkTable (JS.slice (filteredOrders page) start end_) totalPages.

(** [applyFilters()]; the table it renders is [renderTable] of the result. *)
Definition applyFilters (ui : FilterInputs) (clock : Clock) (page : Page)
  : Page :=
  let search := JS.trim (JS.toLowerCase (searchInput ui)) in
  let status_ := statusFilter ui in
  let dateFilter_ := dateFilter ui in
  mkPage (allOrders page)
    (List.filter
       (fun order =>
          matchesSearch search order && matchesStatus status_ order
          && matchesDate dateFilter_ clock order)
       (allOrders page))
    1
    (shownStats page).

(** [window.changePage(page)]; the table it renders is [renderTable] of the
    result. *)
Definition changePage (n : Z) (page : Page) : Page :=
  mkPage (allOrders page) (filteredOrders page) n (shownStats page).

(** *** The snapshot listener *)

(** The success callback that [listenToOrders] registers with
    [onSnapshot]. *)
Definition onOrdersSnapshot (ui : FilterInputs) (clock : Clock)
    (snapshot : Firestore.QuerySnapshot Order) (page : Page)
  : Page * list Toast :=
  let mirrored :=
    mkPage (Firestore.docs snapshot) (filteredOrders page) (currentPage page)
      (shownStats page) in
  let filtered := applyFilters ui clock mirrored in
  let page' :=
    mkPage (allOrders filtered) (filteredOrders filtered)
      (currentPage filtered) (updateStats clock (allOrders filtered)) in
  (* Show notification for new orders *)
  let changes := Firestore.docChanges snapshot in
  let toasts :=
    if existsb Firestore.is_added changes then
      let newCount :=
        Z.of_nat (length (List.filter Firestore.is_added changes)) in
      if (newCount >? 0) && (Z.of_nat (length (allOrders page')) >? newCount)
      then [mkToast (pretty newCount +:+ " new order(s) received!") "info"]
      else []
    else [] in
  (page', toasts).

(** *** CSV export *)

(** [formatDate(date)], with [toLocaleDateString] the rendering of an
    instant by [Date.prototype.toLocaleDateString('en-IN', ...)]. *)
Definition formatDate (toLocaleDateString : Z -> string) (date : CreatedAt)
  : string :=
  match date with
  | NoDate => "N/A"
  | InvalidDate => "Invalid Date"
  | DateMs ms => toLocaleDateString ms
  end.

(** The callback of [orders.filter] in [exportOrders]. *)
Definition in_period (period : string) (clock : Clock) (order : Order) : bool :=
  match createdAt order with
  | NoDate => false
  | orderDate =>
      if period === "today" then on_or_after orderDate (startOfToday clock)
      else if period === "week" then on_or_after orderDate (sevenDaysAgo clock)
      else if period === "month" then on_or_after orderDate (oneMonthAgo clock)
      else true
  end.

(** The values interpolated into the line of one order. *)
Definition export_cells (toLocaleDateString : Z -> string) (order : Order)
  : list string :=
  let items_ :=
    String.concat "; "
      ((fun i => i_name i +:+ " x" +:+ pretty (i_quantity i))
         <$> items order) in
  [ id order;
    match address order with Some a => a_name a | None => "" end;
    match address order with Some a => a_phone a | None => "" end;
    items_;
    JS.rupee +:+ pretty (total order);
    paymentMethod order;
    status order;
    formatDate toLocaleDateString (createdAt order) ].

Definition export_header : string :=
  JS.BOM +:+ "Order ID,Customer,Phone,Items,Total,Payment,Status,Date"
    +:+ JS.newline.

(** The text built by the [orders.forEach] loop of [exportOrders]. *)
Definition export_csv (toLocaleDateString : Z -> string) (orders : list Order)
  : string :=
  fold_left
    (fun csv order =>
       csv +:+ JS.csv_line (export_cells toLocaleDateString order))
    orders export_header.

(** [window.exportOrders(period)], with [isoDate] the value of
    [new Date().toISOString().split('T')[0]]. *)
Definition exportOrders (toLocaleDateString : Z -> string) (clock : Clock)
    (isoDate : string) (period : string) (page : Page)
  : option JS.Download * list Toast :=
  let orders :=
    if period !== "all"
    then List.filter (in_period period clock) (allOrders page)
    else allOrders page in
  if (length orders =? 0)%nat then
    (None, [mkToast "No orders to export" "info"])
  else
    (Some (JS.mkDownload ("orders_" +:+ period +:+ "_" +:+ isoDate +:+ ".csv")
             (export_csv toLocaleDateString orders)),
     [mkToast ("Exported " +:+ pretty (Z.of_nat (length orders)) +:+ " orders")
        "success"]).

End Orders.

(* ====================================================================== *)
(** ** The users page module *)
(* ====================================================================== *)

Module Users.

(** A user document together with its id.  [orderCount] is 0 when the
    field is missing; [createdAt] is the creation time as an ISO string
    (the stored string, or [toDate().toISOString()] of a stored timestamp)
    and [None] when the field is missing. *)
Record User : Type := mkUser {
  id : string;
  name : string;
  email : string;
  phone : string;
  status : string;
  city : string;
  orderCount : Z;
  createdAt : option string
}.

Record FilterInputs : Type := mkFilterInputs {
  searchInput : string;
  statusFilter : string
}.

Record Page : Type := mkPage {
  allUsers : list User;
  filteredUsers : list User;
  currentPage : Z
}.

(** [applyFilters()] *)
Definition applyFilters (ui : FilterInputs) (page : Page) : Page :=
  let search := JS.trim (JS.toLowerCase (searchInput ui)) in
  let status_ := statusFilter ui in
  mkPage (allUsers page)
    (List.filter
       (fun user =>
          (negb (truthy search)
           || (truthy (name user)
               && JS.includes (JS.toLowerCase (name user)) search)
           || (truthy (email user)
               && JS.includes (JS.toLowerCase (email user)) search)
           || (truthy (phone user) && JS.includes (phone user) search)
           || JS.includes (JS.toLowerCase (id user)) search)
          && (negb (truthy status_) || (status user === status_)))
       (allUsers page))
    1.

(** The success callback that [setupRealtimeUsersListener] registers with
    [onSnapshot] (the statistics it writes to the page are left out). *)
Definition onUsersSnapshot (ui : FilterInputs)
    (snapshot : Firestore.QuerySnapshot User) (page : Page)
  : Page * list Toast :=
  let allUsers := Firestore.docs snapshot in
  (* Check for new users added *)
  let toasts :=
    flat_map
      (fun change =>
         if Firestore.is_added change && (1 <? Z.of_nat (length allUsers)) then
           (* New user was added (not initial load) *)
           let newUser := Firestore.change_doc change in
           [mkToast ("New user registered: " +:+
                       (if truthy (name newUser) then name newUser
                        else email newUser))
              "success"]
         else [])
      (Firestore.docChanges snapshot) in
  (applyFilters ui (mkPage allUsers (filteredUsers page) (currentPage page)),
   toasts).

(** *** CSV export *)

(** The values interpolated into the line of one user. *)
Definition csv_cells (user : User) : list string :=
  let joined :=
    match createdAt user with
    | Some iso => iso
    | None => "N/A"
    end in
  [ id user; name user; email user; phone user; status user; city user;
    pretty (orderCount user); joined ].

Definition csv_header : string :=
  JS.BOM +:+ "User ID,Name,Email,Phone,Status,City,Orders,Joined Date"
    +:+ JS.newline.

(** [generateCSV(users, filename)] *)
Definition generateCSV (users : list User) (filename : string) : JS.Download :=
  JS.mkDownload filename
    (fold_left (fun csv user => csv +:+ JS.csv_line (csv_cells user))
       users csv_header).

(** [window.exportToExcel()], with [isoDate] the value of
    [new Date().toISOString().split('T')[0]]. *)
Definition exportToExcel (isoDate : string) (page : Page)
  : option JS.Download * list Toast :=
  if (length (filteredUsers page) =? 0)%nat then
    (None, [mkToast "No users to export" "warning"])
  else
    (Some (generateCSV (filteredUsers page)
             ("users_export_" +:+ isoDate +:+ ".csv")),
     [mkToast "Users exported successfully" "success"]).

End Users.

(* ====================================================================== *)
(** ** admin/js/dashboard.js *)
(* ====================================================================== *)

Module Dashboard.
Import Orders.

Record OrderStats : Type := mkOrderStats {
  totalOrders : Z;
  pendingOrders : Z;
  todayRevenue : Z
}.

(** The body of the [snapshot.forEach] loop of [loadOrderStats]. *)
Definition loadOrderStats_step (today : Z) (acc : OrderStats) (order : Order)
  : OrderStats :=
  let totalOrders := totalOrders acc + 1 in
  let pendingOrders :=
    if is_pending (status order) then pendingOrders acc + 1
    else pendingOrders acc in
  let todayRevenue :=
    if on_or_after (createdAt order) today && (status order !== "cancelled")
    then todayRevenue acc + total order
    else todayRevenue acc in
  mkOrderStats totalOrders pendingOrders todayRevenue.

(** [loadOrderStats()] on the documents returned by [getDocs]. *)
Definition loadOrderStats (clock : Clock) (docs : list Order) : OrderStats :=
  fold_left (loadOrderStats_step (startOfToday clock)) docs
    (mkOrderStats 0 0 0).

End Dashboard.

(* ====================================================================== *)
(** ** The vocabulary of the specification, for the orders page *)
(* ====================================================================== *)

Module OrdersSpec.
Import Orders.

(** The five order statuses. *)
Definition statuses : list string :=
  ["confirmed"; "packed"; "out_for_delivery"; "delivered"; "cancelled"].

(** The edges of the state diagram: the immediate forward successor in the
    chain confirmed, packed, out_for_delivery, delivered; or cancellation
    from a status that is neither delivered nor cancelled. *)
Definition legal_transition (a b : string) : bool :=
  ((a === "confirmed") && (b === "packed"))
  || ((a === "packed") && (b === "out_for_delivery"))
  || ((a === "out_for_delivery") && (b === "delivered"))
  || ((b === "cancelled") && (a !== "delivered") && (a !== "cancelled")).

(** [sub] occurs in [s]. *)
Definition is_substring (sub s : string) : Prop :=
  exists pre post, s = pre +:+ sub +:+ post.

(** [term] occurs in [field] when the case of letters is ignored. *)
Definition ci_substring (term field : string) : Prop :=
  is_substring (JS.toLowerCase term) (JS.toLowerCase field).

(** The order was created at an instant on or after [start]. *)
Definition created_since (start : Z) (o : Order) : Prop :=
  exists ms, createdAt o = DateMs ms /\ start <= ms.

#[global] Instance created_since_dec start o : Decision (created_since start o).
Proof.
  unfold created_since. destruct (createdAt o) as [| |ms].
  - right. intros (? & [=] & _).
  - right. intros (? & [=] & _).
  - destruct (decide (start <= ms)) as [H|H].
    + left. eauto.
    + right. intros (? & [= <-] & ?). contradiction.
Defined.

(** The orders that count towards the revenue of the day starting at
    [start]. *)
Definition earns_since (start : Z) (o : Order) : Prop :=
  created_since start o /\ status o <> "cancelled".

Definition sumZ (l : list Z) : Z := foldr Z.add 0 l.

(** The value of an address field, empty when the order has no address. *)
Definition address_field (o : Order) (field : Address -> string) : string :=
  match address o with
  | Some a => field a
  | None => ""
  end.

(** The filter predicate in the words of the specification: the search
    term is a case-insensitive substring of the id, the address name, the
    address phone or the address email; the status filter is the no-op value
    or equals the status; the creation time lies in the named range. *)
Definition spec_search (term : string) (o : Order) : Prop :=
  ci_substring term (id o)
  \/ ci_substring term (address_field o a_name)
  \/ ci_substring term (address_field o a_phone)
  \/ ci_substring term (address_field o a_email).

Definition spec_status (f : string) (o : Order) : Prop :=
  f = "" \/ f = "all" \/ status o = f.

Definition spec_date (f : string) (clock : Clock) (o : Order) : Prop :=
  (f = "today" /\ created_since (startOfToday clock) o)
  \/ (f = "week" /\ created_since (sevenDaysAgo clock) o)
  \/ (f = "month" /\ created_since (oneMonthAgo clock) o)
  \/ f = "all".

Definition spec_match (ui : FilterInputs) (clock : Clock) (o : Order) : Prop :=
  spec_search (searchInput ui) o
  /\ spec_status (statusFilter ui) o
  /\ spec_date (dateFilter ui) clock o.

(** The filter predicate the page applies.  [term] is the search input,
    lower-cased and trimmed: it must be empty or occur in the lower-cased
    id, the lower-cased address name, the address phone as stored, or the
    lower-cased address email. *)
Definition search_matches (term : string) (o : Order) : Prop :=
  term = ""
  \/ is_substring term (JS.toLowerCase (id o))
  \/ is_substring term (JS.toLowerCase (address_field o a_name))
  \/ is_substring term (address_field o a_phone)
  \/ is_substring term (JS.toLowerCase (address_field o a_email)).

(** The status filter is empty or equals the status of the order. *)
Definition status_matches (f : string) (o : Order) : Prop :=
  f = "" \/ status o = f.

(** The date filter names no range, or the order carries no creation time,
    or the creation time is on or after the start of the named range. *)
Definition date_matches (f : string) (clock : Clock) (o : Order) : Prop :=
  (f <> "today" /\ f <> "week" /\ f <> "month")
  \/ createdAt o = NoDate
  \/ (f = "today" /\ created_since (startOfToday clock) o)
  \/ (f = "week" /\ created_since (sevenDaysAgo clock) o)
  \/ (f = "month" /\ created_since (oneMonthAgo clock) o).

End OrdersSpec.

(* ====================================================================== *)
(** ** The vocabulary of the specification, for snapshot listeners *)
(* ====================================================================== *)

Module ListenerSpec.
Import Firestore.

(** The number of changes of type [t] that a snapshot reports. *)
Definition count_changes {D : Type} (t : ChangeType) (snap : QuerySnapshot D)
  : nat :=
  length (filter (fun c => change_type c = t) (docChanges snap)).

(** [snap] is a snapshot that Firestore can deliver to a listener whose
    mirror holds the documents [prev]: the result set is the previous one
    with the removed documents taken out and the added ones put in. *)
Definition delivers {D : Type} (prev : list D) (snap : QuerySnapshot D)
  : Prop :=
  (count_changes removed snap <= length prev)%nat /\
  (length (docs snap) + count_changes removed snap
   = length prev + count_changes added snap)%nat.

(** The notification rule in the words of the specification, for a
    listener that shows [notify snap] when it receives [snap]: one
    notification for a batch of additions delivered to a non-empty mirror,
    none for the first population of an empty mirror. *)
Definition notifies_once_per_batch {D : Type}
    (notify : QuerySnapshot D -> list Toast) : Prop :=
  forall (prev : list D) (snap : QuerySnapshot D),
    delivers prev snap ->
    (prev <> [] -> (0 < count_changes added snap)%nat ->
       length (notify snap) = 1%nat) /\
    (prev = [] -> notify snap = []).

End ListenerSpec.

(* ====================================================================== *)
(** ** The vocabulary of the specification, for CSV files *)
(* ====================================================================== *)

Module CsvSpec.

Fixpoint count_char (c : ascii) (s : string) : nat :=
  match s with
  | EmptyString => 0%nat
  | String d s' =>
      ((if Ascii.eqb d c then 1 else 0) + count_char c s')%nat
  end.

(** The number of lines of a text whose lines each end with a line feed. *)
Definition line_count (s : string) : nat := count_char (ascii_of_nat 10) s.

Definition no_line_break (v : string) : Prop :=
  count_char (ascii_of_nat 10) v = 0%nat.

Definition no_quote (v : string) : Prop :=
  count_char (ascii_of_nat 34) v = 0%nat.

(** Reading one record of a CSV file (RFC 4180): fields separated by
    commas; a field may be enclosed in double quotes, and then holds commas
    and line breaks as they are and a double quote written twice; the record
    ends at a line feed outside quotes. *)
Inductive Mode : Type :=
| FieldStart      (* at the beginning of a field *)
| Unquoted        (* inside a field that is not enclosed in quotes *)
| Quoted          (* inside an enclosed field *)
| QuoteSeen.      (* just after a double quote inside an enclosed field *)

Definition snoc (s : string) (c : ascii) : string := s +:+ String c EmptyString.

Fixpoint read_record (m : Mode) (cur : string) (done : list string)
    (s : string) : option (list string) :=
  match s with
  | EmptyString => None
  | String c rest =>
      let is_quote := Ascii.eqb c (ascii_of_nat 34) in
      let is_comma := Ascii.eqb c "," in
      let is_break := Ascii.eqb c (ascii_of_nat 10) in
      let finish (field : string) :=
        if rest === "" then Some (done ++ [field])%list else None in
      match m with
      | FieldStart =>
          if is_quote then read_record Quoted "" done rest
          else if is_comma then
            read_record FieldStart "" (done ++ [""])%list rest
          else if is_break then finish ""
          else read_record Unquoted (String c EmptyString) done rest
      | Unquoted =>
          if is_quote then None
          else if is_comma then
            read_record FieldStart "" (done ++ [cur])%list rest
          else if is_break then finish cur
          else read_record Unquoted (snoc cur c) done rest
      | Quoted =>
          if is_quote then read_record QuoteSeen cur done rest
          else read_record Quoted (snoc cur c) done rest
      | QuoteSeen =>
          if is_quote then read_record Quoted (snoc cur c) done rest
          else if is_comma then
            read_record FieldStart "" (done ++ [cur])%list rest
          else if is_break then finish cur
          else None
      end
  end.

(** [line] is one well-formed CSV row whose fields are [cells]. *)
Definition row_of (cells : list string) (line : string) : Prop :=
  read_record FieldStart "" [] line = Some cells.

(** The texts of a list, one after the other. *)
Definition flat (l : list string) : string := foldr String.append "" l.

End CsvSpec.

(* ====================================================================== *)
(** ** Sample data used by the examples below *)
(* ====================================================================== *)

Module FunctionsSamples.
Import Functions.

Definition super_doc (mail : string) (off : bool) : AdminDoc :=
  mkAdminDoc "Super Admin" mail "super_admin" "" off None "".

Definition plain_doc (mail : string) : AdminDoc :=
  mkAdminDoc "Admin" mail "admin" "sa1" false None "".

(** Tokens of the two super admins [sa1] and [sa2]. *)
Definition ctx_sa1 : CallableContext :=
  mkContext (Some (mkAuthContext "sa1" (Some "super_admin"))).
Definition ctx_sa2 : CallableContext :=
  mkContext (Some (mkAuthContext "sa2" (Some "super_admin"))).

Definition accounts : gmap string AuthRecord :=
  <["sa1" := mkAuthRecord "sa1@freshmart.test" false]>
  (<["sa2" := mkAuthRecord "sa2@freshmart.test" false]>
  (<["ad3" := mkAuthRecord "ad3@freshmart.test" false]> ∅)).

(** Two enabled super admins and one plain admin. *)
Definition two_supers : Backend :=
  mkBackend
    (<["sa1" := super_doc "sa1@freshmart.test" false]>
     (<["sa2" := super_doc "sa2@freshmart.test" false]>
     (<["ad3" := plain_doc "ad3@freshmart.test"]> ∅)))
    accounts 1000.

(** [sa1] is the only enabled super admin; [sa2] is a disabled one. *)
Definition one_active_super : Backend :=
  mkBackend
    (<["sa1" := super_doc "sa1@freshmart.test" false]>
     (<["sa2" := super_doc "sa2@freshmart.test" true]>
     (<["ad3" := plain_doc "ad3@freshmart.test"]> ∅)))
    (<["sa2" := mkAuthRecord "sa2@freshmart.test" true]> accounts) 1000.

End FunctionsSamples.

Module OrdersSamples.
Import Orders.

Definition order_of (i : string) (amount : Z) (st : string) (d : CreatedAt)
  : Order :=
  mkOrder i [] amount "cod" None st [] d "".

(** A delivered order with its history. *)
Definition delivered_order : Order :=
  mkOrder "o1" [mkItem "Apples" 50 2] 100 "cod" None "delivered"
    [mkHistoryEntry "delivered" "2026-01-05T10:00:00.000Z"
       "Order Delivered by admin" "admin@freshmart.test"]
    (DateMs 1000) "2026-01-05T10:00:00.000Z".

Definition one_order_store : gmap string Order :=
  <["o1" := delivered_order]> ∅.

Definition accepting : StatusEnv :=
  mkStatusEnv true "2026-01-06T09:00:00.000Z" true.

(** An order whose phone number is written with capital letters. *)
Definition vanity_phone_order : Order :=
  mkOrder "ord-17" [mkItem "Milk" 30 1] 30 "cod"
    (Some (mkAddress "Ravi" "0800-FRESH" "ravi@example.test" "1 Main Road"
             "Pune" "411001" "MH"))
    "confirmed" [] (DateMs 5000) "".

Definition noon_clock : Clock := mkClock 4000 3000 2000.

Definition empty_stats : Stats := mkStats 0 0 0 0.

Definition no_filters : FilterInputs := mkFilterInputs "" "" "all".

Definition order_a : Order := order_of "A" 100 "confirmed" (DateMs 4500).
Definition order_b : Order := order_of "B" 200 "delivered" (DateMs 1500).
Definition order_c : Order := order_of "C" 50 "confirmed" (DateMs 4800).

Definition empty_page : Page := mkPage [] [] 1 empty_stats.

(** The first snapshot after the listener is attached: every document of
    the result set is reported as added. *)
Definition first_load : Firestore.QuerySnapshot Order :=
  Firestore.mkSnapshot [order_a; order_b]
    [Firestore.mkChange Firestore.added order_a;
     Firestore.mkChange Firestore.added order_b].

(** A snapshot that replaces the only order of the mirror by a new one. *)
Definition replaced : Firestore.QuerySnapshot Order :=
  Firestore.mkSnapshot [order_c]
    [Firestore.mkChange Firestore.removed order_a;
     Firestore.mkChange Firestore.added order_c].

(** A later snapshot: one new order. *)
Definition one_more : Firestore.QuerySnapshot Order :=
  Firestore.mkSnapshot [order_c; order_a; order_b]
    [Firestore.mkChange Firestore.added order_c].

End OrdersSamples.

Module UsersSamples.
Import Users.

Definition user_of (i n : string) : User :=
  mkUser i n (i +:+ "@example.test") "9876543210" "active" "Pune" 0
    (Some "2026-01-05T10:00:00.000Z").

Definition asha : User := user_of "u1" "Asha".
Definition bala : User := user_of "u2" "Bala".
Definition chitra : User := user_of "u3" "Chitra".

Definition no_filters : FilterInputs := mkFilterInputs "" "".

(** Two users register while the mirror already holds one. *)
Definition two_new_users : Firestore.QuerySnapshot User :=
  Firestore.mkSnapshot [chitra; bala; asha]
    [Firestore.mkChange Firestore.added chitra;
     Firestore.mkChange Firestore.added bala].

(** The first snapshot after the listener is attached, with two users. *)
Definition first_load : Firestore.QuerySnapshot User :=
  Firestore.mkSnapshot [bala; asha]
    [Firestore.mkChange Firestore.added bala;
     Firestore.mkChange Firestore.added asha].

(** A user whose name holds double quotes: Al "Ace" Rao. *)
Definition nicknamed : User :=
  mkUser "u4" ("Al " +:+ JS.dquote +:+ "Ace" +:+ JS.dquote +:+ " Rao")
    "al@example.test" "9000000001" "active" "Goa" 2
    (Some "2026-02-01T08:30:00.000Z").

(** A user whose city holds a comma. *)
Definition comma_city : User :=
  mkUser "u5" "Devi" "devi@example.test" "9000000002" "active"
    "Panaji, Goa" 1 None.

End UsersSamples.

(* ====================================================================== *)
(** ** admin/js/auth.js: signing in and out *)
(* ====================================================================== *)

Module AuthSession.
Import Auth.



(** [logoutAdmin()] *)
Definition logoutAdmin : list Effect := [SignOut; Redirect "login.html"].


End AuthSession.

(* ====================================================================== *)
(** ** admin/js/dashboard.js: the snapshot listener *)
(* ====================================================================== *)

Module DashboardLive.
Import Orders.

(** The notifications shown by the callback that [setupRealtimeListeners]
    registers with [onSnapshot] (the callback also reloads the statistics
    and the recent orders). *)
Definition onOrdersSnapshot (snapshot : Firestore.QuerySnapshot Order)
  : list Toast :=
  flat_map
    (fun change =>
       if Firestore.is_added change
          && (status (Firestore.change_doc change) === "confirmed") then
         let isNewOrder :=
           Z.of_nat (length (List.filter Firestore.is_added
                               (Firestore.docChanges snapshot))) <=? 1 in
         if negb isNewOrder then []
         else [mkToast "New order received!" "info"]
       else [])
    (Firestore.docChanges snapshot).

End DashboardLive.

(* ====================================================================== *)
(** ** The orders page module: the order view and the page controls *)
(* ====================================================================== *)

Module OrdersView.
Import Orders.

(** [statuses.indexOf(s)], from position [i] on. *)
Fixpoint indexOf_from (i : Z) (l : list string) (s : string) : Z :=
  match l with
  | [] => -1
  | x :: l' => if x === s then i else indexOf_from (i + 1) l' s
  end.

Definition indexOf (l : list string) (s : string) : Z := indexOf_from 0 l s.

(** [list.find(p)] *)
Fixpoint find_first {A : Type} (p : A -> bool) (l : list A) : option A :=
  match l with
  | [] => None
  | x :: l' => if p x then Some x else find_first p l'
  end.

(** One step of the tracking timeline: its status, its CSS class and the
    history timestamp that is formatted under its label (empty when none
    is shown). *)
Record Step : Type := mkStep {
  step_status : string;
  stepClass : string;
  step_timestamp : string
}.

(** The callback of [statuses.map] in [renderTrackingTimeline]. *)
Definition timeline_step (order : Order) (currentIndex : Z)
    (index : Z) (status_ : string) : Step :=
  let stepClass :=
    if index <? currentIndex then "completed"
    else if index =? currentIndex then "active"
    else "" in
  let history :=
    find_first (fun h => h_status h === status_) (statusHistory order) in
  let timestamp :=
    match history with
    | Some h => h_timestamp h
    | None => ""
    end in
  mkStep status_ stepClass timestamp.

(** [renderTrackingTimeline(order)] *)
Definition renderTrackingTimeline (order : Order) : list Step :=
  let statuses := ["confirmed"; "packed"; "out_for_delivery"; "delivered"] in
  let currentIndex := indexOf statuses (status order) in
  imap (fun index status_ =>
          timeline_step order currentIndex (Z.of_nat index) status_)
    statuses.

(** What [renderPagination] puts on the page: the two arrow buttons with
    the page their click asks for, the numbered buttons, and the dots. *)
Inductive Control : Type :=
| Arrow (target : Z) (disabled : bool)
| PageButton (target : Z) (active : bool)
| Dots.

(** The body of the [for] loop of [renderPagination]. *)
Definition pagination_item (currentPage totalPages i : Z) : list Control :=
  if (i =? 1) || (i =? totalPages)
     || ((currentPage - 1 <=? i) && (i <=? currentPage + 1)) then
    [PageButton i (i =? currentPage)]
  else if (i =? currentPage - 2) || (i =? currentPage + 2) then [Dots]
  else [].

(** [renderPagination(totalPages)] *)
Definition renderPagination (currentPage totalPages : Z) : list Control :=
  if totalPages <=? 1 then []
  else
    [Arrow (currentPage - 1) (currentPage =? 1)]
    ++ flat_map (fun i => pagination_item currentPage totalPages (Z.of_nat i))
         (seq 1 (Z.to_nat totalPages))
    ++ [Arrow (currentPage + 1) (currentPage =? totalPages)].

(** The pages a click can ask for: the targets of the numbered buttons and
    of the arrows that are not disabled. *)
Definition click_targets (controls : list Control) : list Z :=
  flat_map
    (fun c =>
       match c with
       | Arrow t off => if off then [] else [t]
       | PageButton t _ => [t]
       | Dots => []
       end)
    controls.

(** The table of every page from 1 to the number of pages. *)
Definition all_pages (page : Page) : list (list Order) :=
  (fun n => rows (renderTable (changePage (Z.of_nat n) page)))
    <$> seq 1 (Z.to_nat (totalPages (renderTable page))).

End OrdersView.

(* ====================================================================== *)
(** ** functions/index.js: the user-management callables *)
(* ====================================================================== *)

Module UserFunctions.
Import Functions.

(** A document of the [users] collection. *)
Record UserDoc : Type := mkUserDoc {
  u_name : string;
  u_email : string;
  u_phone : string;
  u_status : string;
  u_createdBy : string;
  u_updatedAt : option Z;
  u_updatedBy : string
}.

(** An account of the identity provider, with its display name. *)
Record Account : Type := mkAccount {
  acc_email : string;
  acc_displayName : string;
  acc_disabled : bool
}.

(** The state these callables act on: the [users] and [admins] collections
    and the accounts of the identity provider, which admins and users
    share. *)
Record Store : Type := mkStore {
  users : gmap string UserDoc;
  admin_docs : gmap string AdminDoc;
  accounts : gmap string Account;
  serverTime : Z
}.

Definition MS (A : Type) : Type := Store -> Result A * Store.

#[global] Instance MS_ret : MRet MS := fun A a s => (Ok a, s).

#[global] Instance MS_bind : MBind MS := fun A B k m s =>
  match m s with
  | (Ok a, s') => k a s'
  | (Throw e, s') => (Throw e, s')
  end.

Definition raise {A : Type} (e : Exn) : MS A := fun s => (Throw e, s).

(** [try { body } catch (error) { handler }] *)
Definition attempt {A : Type} (body : MS A) (handler : Exn -> MS A) : MS A :=
  fun s =>
    match body s with
    | (Ok a, s') => (Ok a, s')
    | (Throw e, s') => handler e s'
    end.

(** [if (cond) throw e;] *)
Definition raise_if (cond : bool) (e : Exn) : MS unit :=
  if cond then raise e else mret tt.

(** [auth.updateUser(uid, properties)] *)
Definition accounts_update (id : string) (f : Account -> Account) : MS unit :=
  fun s =>
    match accounts s !! id with
    | None => (Throw (SdkError "auth/user-not-found" "no user record"), s)
    | Some a =>
        (Ok tt,
         mkStore (users s) (admin_docs s) (<[id := f a]> (accounts s))
           (serverTime s))
    end.

(** [auth.deleteUser(uid)] *)
Definition accounts_delete (id : string) : MS unit := fun s =>
  match accounts s !! id with
  | None => (Throw (SdkError "auth/user-not-found" "no user record"), s)
  | Some _ =>
      (Ok tt,
       mkStore (users s) (admin_docs s) (delete id (accounts s)) (serverTime s))
  end.

(** [db.collection('users').doc(id).update(f)]: fails on a missing
    document. *)
Definition users_update (id : string) (f : UserDoc -> UserDoc) : MS unit :=
  fun s =>
    match users s !! id with
    | None => (Throw (SdkError "not-found" "no document to update"), s)
    | Some d =>
        (Ok tt,
         mkStore (<[id := f d]> (users s)) (admin_docs s) (accounts s)
           (serverTime s))
    end.

(** [db.collection('users').doc(id).delete()] *)
Definition users_delete (id : string) : MS unit := fun s =>
  (Ok tt,
   mkStore (delete id (users s)) (admin_docs s) (accounts s) (serverTime s)).

Definition timestamp : MS Z := fun s => (Ok (serverTime s), s).

(** [verifyAdmin(context)] *)
Definition verifyAdmin (context : CallableContext) : MS bool :=
  match auth context with
  | None => raise (HttpsError unauthenticated "User must be authenticated")
  | Some a =>
      if negb (role_is (token_role a) "super_admin")
         && negb (role_is (token_role a) "admin") then
        raise (HttpsError permission_denied
                 "Only admins can perform this action")
      else mret true
  end.

Record UpdateData : Type := mkUpdateData {
  up_userId : string;
  up_name : option string;        (* [None] is [undefined] *)
  up_phone : option string;
  up_status : option string
}.

(** [exports.updateUser] *)
Definition updateUser (data : UpdateData) (context : CallableContext)
  : MS Response :=
  _ ← verifyAdmin context;
  let userId := up_userId data in
  raise_if (negb (truthy userId))
    (HttpsError invalid_argument "User ID is required");;
  attempt
    (t ← timestamp;
     (* Update display name in Auth if name is provided *)
     match up_name data with
     | Some n =>
         if truthy n then
           accounts_update userId (fun a =>
             mkAccount (acc_email a) n (acc_disabled a))
         else mret tt
     | None => mret tt
     end;;
     (* Update Firestore *)
     users_update userId (fun d =>
       mkUserDoc (default (u_name d) (up_name data)) (u_email d)
         (default (u_phone d) (up_phone data))
         (default (u_status d) (up_status data))
         (u_createdBy d) (Some t) (caller_uid context));;
     mret (mkResponse true "User updated successfully"))
    (fun error => raise (HttpsError internal (exn_message error))).

Record StatusData : Type := mkStatusData {
  st_userId : string;
  st_status : string
}.

Definition validStatuses : list string :=
  ["active"; "inactive"; "suspended"; "pending"].

(** [exports.updateUserStatus] *)
Definition updateUserStatus (data : StatusData) (context : CallableContext)
  : MS Response :=
  _ ← verifyAdmin context;
  let userId := st_userId data in
  let status := st_status data in
  raise_if (negb (truthy userId) || negb (truthy status))
    (HttpsError invalid_argument "User ID and status are required");;
  raise_if (negb (existsb (fun v => v === status) validStatuses))
    (HttpsError invalid_argument "Invalid status");;
  attempt
    ((* Disable/enable user in Auth based on status *)
     let shouldDisable := (status === "suspended") || (status === "inactive") in
     accounts_update userId (fun a =>
       mkAccount (acc_email a) (acc_displayName a) shouldDisable);;
     (* Update Firestore *)
     t ← timestamp;
     users_update userId (fun d =>
       mkUserDoc (u_name d) (u_email d) (u_phone d) status (u_createdBy d)
         (Some t) (caller_uid context));;
     mret (mkResponse true "User status updated successfully"))
    (fun error => raise (HttpsError internal (exn_message error))).

(** [exports.deleteUser] *)
Definition deleteUser (userId : string) (context : CallableContext)
  : MS Response :=
  _ ← verifyAdmin context;
  raise_if (negb (truthy userId))
    (HttpsError invalid_argument "User ID is required");;
  attempt
    ((* Delete from Firebase Auth *)
     accounts_delete userId;;
     (* Delete from Firestore *)
     users_delete userId;;
     mret (mkResponse true "User deleted successfully"))
    (fun error =>
       if exn_code error === "auth/user-not-found" then
         users_delete userId;;
         mret (mkResponse true "User deleted from database")
       else raise (HttpsError internal (exn_message error))).

(** The object returned by [exports.verifyAdminRole]. *)
Record RoleInfo : Type := mkRoleInfo {
  isAdmin : bool;
  ri_role : option string;
  ri_uid : option string
}.

(** [exports.verifyAdminRole] *)
Definition verifyAdminRole (context : CallableContext) : RoleInfo :=
  match auth context with
  | None => mkRoleInfo false None None
  | Some a =>
      if role_is (token_role a) "super_admin" || role_is (token_role a) "admin"
      then mkRoleInfo true (token_role a) (Some (uid a))
      else mkRoleInfo false None None
  end.

End UserFunctions.

Module UserFunctionsSamples.
Import Functions UserFunctions.

Definition ctx_admin : CallableContext :=
  mkContext (Some (mkAuthContext "ad3" (Some "admin"))).

(** One customer, and the super admin [sa1] whose account lives in the
    same identity provider. *)
Definition shop : Store :=
  mkStore
    (<["cust7" := mkUserDoc "Ravi" "ravi@example.test" "9876543210" "active"
                    "ad3" None ""]> ∅)
    (<["sa1" := FunctionsSamples.super_doc "sa1@freshmart.test" false]> ∅)
    (<["cust7" := mkAccount "ravi@example.test" "Ravi" false]>
     (<["sa1" := mkAccount "sa1@freshmart.test" "Super Admin" false]> ∅))
    2000.

End UserFunctionsSamples.

Module ViewSamples.
Import Orders.

(** Twenty-five orders, shown on the second of three pages. *)
Definition long_page : Page :=
  mkPage (replicate 25 OrdersSamples.order_a)
    (replicate 25 OrdersSamples.order_a) 2 OrdersSamples.empty_stats.

(** A packed order that was confirmed before. *)
Definition packed_order : Order :=
  mkOrder "o7" [mkItem "Rice" 60 1] 60 "online" None "packed"
    [mkHistoryEntry "confirmed" "2026-01-04T08:00:00.000Z"
       "Order Confirmed by admin" "admin@freshmart.test";
     mkHistoryEntry "packed" "2026-01-04T12:00:00.000Z"
       "Order Packed by admin" "admin@freshmart.test"]
    (DateMs 900) "2026-01-04T12:00:00.000Z".

Definition packed_store : gmap string Order := <["o7" := packed_order]> ∅.

End ViewSamples.

(* ====================================================================== *)
(** * Properties *)
(* ====================================================================== *)

Section AuthProperties.
Import Auth.

Lemma role_is_true (role : option string) (r : string) :
  role_is role r = true <-> role = Some r.
Proof.
  destruct role as [s|]; simpl.
  - rewrite String.eqb_eq. split; congruence.
  - split; discriminate.
Qed.

Lemma role_is_false (role : option string) (r : string) :
  role_is role r = false <-> role <> Some r.
Proof.
  rewrite <- role_is_true. destruct (role_is role r); split; congruence.
Qed.

(** C5. When the freshly fetched role claim is neither [admin] nor
    [super_admin], [checkAdminRole] returns null and the route guard signs
    out and redirects to the login page; when it is one of the two,
    [checkAdminRole] returns the record [{uid, email, role, isSuperAdmin}]
    whose [isSuperAdmin] is true exactly for [super_admin]. *)
Theorem checkAdminRole_by_claim (u : FirebaseUser) (r : option string)
    (Hfetch : getIdTokenResult u = Resolved r) :
  (r <> Some "admin" -> r <> Some "super_admin" ->
     checkAdminRole (Some u) = None /\
     forall cb, protectRoute cb (Some u) = [SignOut; Redirect "login.html"]) /\
  (forall role, r = Some role -> role = "admin" \/ role = "super_admin" ->
     checkAdminRole (Some u) =
       Some {| ad_uid := uid u; ad_email := email u; ad_role := role;
               isSuperAdmin := role === "super_admin" |} /\
     (isSuperAdmin <$> checkAdminRole (Some u) = Some true
        <-> role = "super_admin")).
Proof.
  split.
  - intros Hadmin Hsuper.
    apply role_is_false in Hadmin, Hsuper.
    assert (Hnone : checkAdminRole (Some u) = None).
    { unfold checkAdminRole. rewrite Hfetch.
      unfold SUPER_ADMIN, ADMIN. now rewrite Hadmin, Hsuper. }
    split; [exact Hnone|].
    intros cb. unfold protectRoute. now rewrite Hnone.
  - intros role -> Hrole.
    assert (Hsome : checkAdminRole (Some u) =
              Some {| ad_uid := uid u; ad_email := email u; ad_role := role;
                      isSuperAdmin := role === "super_admin" |}).
    { unfold checkAdminRole. rewrite Hfetch.
      destruct Hrole as [-> | ->]; reflexivity. }
    split; [exact Hsome|].
    rewrite Hsome. simpl. rewrite <- String.eqb_eq.
    split; [now intros [= ->] | now intros ->].
Qed.

Lemma checkAdminRole_by_claim_witness :
  let root := mkUser "u1" "root@freshmart.test" (Some "super_admin") true in
  let guest := mkUser "u2" "guest@freshmart.test" (Some "user") true in
  getIdTokenResult root = Resolved (Some "super_admin") /\
  checkAdminRole (Some root) =
    Some (mkAdminData "u1" "root@freshmart.test" "super_admin" true) /\
  getIdTokenResult guest = Resolved (Some "user") /\
  protectRoute true (Some guest) = [SignOut; Redirect "login.html"].
Proof.
  intros root guest.
  split; [reflexivity|]. split; [|split; [reflexivity|]].
  - exact (proj1 (proj2 (checkAdminRole_by_claim root (Some "super_admin")
                           eq_refl)
                    "super_admin" eq_refl (or_intror eq_refl))).
  - apply (proj1 (checkAdminRole_by_claim guest (Some "user") eq_refl));
      discriminate.
Defined.

(** C10. When fetching the claim throws, [checkAdminRole] swallows the
    exception and returns null, exactly as it does for an identity without
    a role claim, whatever role the identity really holds; the route guard
    then signs the user out and redirects to the login page. *)
Theorem checkAdminRole_fetch_failure (u : FirebaseUser)
    (Hthrow : getIdTokenResult u = Rejected) :
  checkAdminRole (Some u) = None /\
  checkAdminRole (Some u) =
    checkAdminRole (Some (mkUser (uid u) (email u) None true)) /\
  forall cb, protectRoute cb (Some u) = [SignOut; Redirect "login.html"].
Proof.
  assert (Hnone : checkAdminRole (Some u) = None).
  { unfold checkAdminRole. now rewrite Hthrow. }
  repeat split.
  - exact Hnone.
  - now rewrite Hnone.
  - intros cb. unfold protectRoute. now rewrite Hnone.
Qed.

Lemma checkAdminRole_fetch_failure_witness :
  let u := mkUser "u1" "root@freshmart.test" (Some "super_admin") false in
  claims_role u = Some "super_admin" /\
  checkAdminRole (Some u) = None /\
  protectRoute true (Some u) = [SignOut; Redirect "login.html"].
Proof.
  intros u. split; [reflexivity|].
  pose proof (checkAdminRole_fetch_failure u eq_refl) as (Hnone & _ & Hguard).
  split; [exact Hnone | exact (Hguard true)].
Defined.

End AuthProperties.

Section FunctionsProperties.
Import Functions.

(** Running a callable: unfold the monad's plumbing. *)
Ltac run :=
  unfold toggleAdminStatus, deleteAdmin, verifySuperAdmin, throw_if, try_catch,
    throw, admins_get, query_active_super_admins, auth_deleteUser,
    auth_updateUser, admins_update, admins_delete, now, caller_uid,
    mbind, M_bind, mret, M_ret; simpl.

Lemma truthy_true (s : string) : truthy s = true <-> s <> "".
Proof.
  unfold truthy. rewrite negb_true_iff, <- not_true_iff_false, String.eqb_eq.
  reflexivity.
Qed.

(** C4. A super admin who targets their own uid is refused with
    [invalid-argument] by both [toggleAdminStatus] (with [disable = true])
    and [deleteAdmin], and the backend is left exactly as it was. *)
Theorem self_target_rejected (s : Backend) (a : AuthContext)
    (Hrole : token_role a = Some "super_admin") :
  (exists msg,
     toggleAdminStatus (mkToggleData (uid a) true) (mkContext (Some a)) s
       = (Throw (HttpsError invalid_argument msg), s)) /\
  (exists msg,
     deleteAdmin (mkDeleteData (uid a)) (mkContext (Some a)) s
       = (Throw (HttpsError invalid_argument msg), s)).
Proof.
  split; run; rewrite Hrole; simpl.
  - destruct (truthy (uid a)); simpl; [|eauto].
    rewrite String.eqb_refl. eauto.
  - destruct (truthy (uid a)); simpl; [|eauto].
    rewrite String.eqb_refl. eauto.
Qed.

(** Deleting a record lowers the number of enabled super admins by one
    when the record is one of them and leaves it alone otherwise. *)
Lemma active_super_admins_delete (m : gmap string AdminDoc) (id : string) :
  size (active_super_admins (delete id m)) =
    match m !! id with
    | Some d => if decide (active_super_admin d)
                then pred (size (active_super_admins m))
                else size (active_super_admins m)
    | None => size (active_super_admins m)
    end.
Proof.
  unfold active_super_admins. rewrite map_filter_delete, map_size_delete.
  destruct (m !! id) as [d|] eqn:Hm.
  - destruct (decide (active_super_admin d)) as [Hd|Hd].
    + erewrite map_lookup_filter_Some_2; eauto.
    + rewrite (map_lookup_filter_None_2 _ m id); [done|].
      right. intros x Hx. simpl. congruence.
  - rewrite (map_lookup_filter_None_2 _ m id); [done|]. now left.
Qed.

(** The guard of [deleteAdmin], when the target is another admin's
    super admin record: with at most one enabled super admin the call
    throws and the backend is untouched (the client sees the rewrapped
    [internal] error); with two or more it succeeds and removes the record
    (and the account, when there is one). *)
Lemma deleteAdmin_super_admin_target (s : Backend) (a : AuthContext)
    (id : string) (d : AdminDoc)
    (Hrole : token_role a = Some "super_admin")
    (Hid : id <> "") (Hother : id <> uid a)
    (Hdoc : admins s !! id = Some d) (Hsuper : role d = "super_admin") :
  let r := deleteAdmin (mkDeleteData id) (mkContext (Some a)) s in
  ((count_active_supers s <= 1)%nat ->
     r = (Throw (HttpsError internal "Cannot delete the last super admin"),
          s)) /\
  ((2 <= count_active_supers s)%nat ->
     (exists response, outcome r = Ok response /\ success response = true) /\
     admins (after r) = delete id (admins s) /\
     authUsers (after r) = delete id (authUsers s)).
Proof.
  apply truthy_true in Hid. apply String.eqb_neq in Hother.
  unfold count_active_supers, outcome, after.
  split; intros Hcount; run;
    rewrite Hrole; simpl; rewrite Hid, Hother; simpl;
    rewrite Hdoc, Hsuper; simpl.
  - rewrite bool_decide_eq_true_2 by exact Hcount. reflexivity.
  - rewrite bool_decide_eq_false_2 by lia. simpl.
    destruct (authUsers s !! id) as [r|] eqn:Hr; simpl.
    + eauto.
    + rewrite (delete_id (authUsers s) id) by exact Hr. eauto.
Qed.

(** X2. [deleteAdmin] never removes the last enabled super admin record:
    whoever calls it and whatever the target, a backend with an enabled
    super admin still has one afterwards. *)
Lemma deleteAdmin_keeps_a_super_admin (data : DeleteData)
    (context : CallableContext) (s : Backend) :
  (1 <= count_active_supers s)%nat ->
  (1 <= count_active_supers (after (deleteAdmin data context s)))%nat.
Proof.
  unfold count_active_supers, after. intros Hinv.
  destruct data as [id]. run.
  destruct (auth context) as [a|]; simpl; [|exact Hinv].
  destruct (negb (role_is (token_role a) "super_admin")); simpl; [exact Hinv|].
  destruct (truthy id); simpl; [|exact Hinv].
  destruct (id === uid a); simpl; [exact Hinv|].
  pose proof (active_super_admins_delete (admins s) id) as Hdel.
  destruct (admins s !! id) as [d|] eqn:Hdoc; simpl.
  - destruct (role d === "super_admin") eqn:Hsuper; simpl.
    + destruct (bool_decide (size (active_super_admins (admins s)) ≤ 1)%nat)
        eqn:Hguard; simpl; [exact Hinv|].
      apply bool_decide_eq_false in Hguard.
      destruct (authUsers s !! id); simpl; rewrite Hdel;
        destruct (decide (active_super_admin d)); lia.
    + assert (Hnot : ~ active_super_admin d).
      { intros [Hr _]. apply String.eqb_neq in Hsuper. contradiction. }
      destruct (authUsers s !! id); simpl; rewrite Hdel;
        destruct (decide (active_super_admin d)); try contradiction; lia.
  - destruct (authUsers s !! id); simpl; rewrite Hdel; lia.
Qed.

(** X6. [toggleAdminStatus] keeps an enabled super admin whenever the
    caller's own record is one: the caller cannot be the target. *)
Lemma toggleAdminStatus_enabled_caller (data : ToggleData) (a : AuthContext)
    (s : Backend) (d : AdminDoc) :
  admins s !! uid a = Some d -> active_super_admin d ->
  (1 <= count_active_supers
          (after (toggleAdminStatus data (mkContext (Some a)) s)))%nat.
Proof.
  intros Hdoc Hactive. unfold count_active_supers, after.
  assert (Hkept : forall m : gmap string AdminDoc,
            m !! uid a = Some d -> (1 <= size (active_super_admins m))%nat).
  { intros m Hm.
    assert (Hne : size (active_super_admins m) <> 0%nat); [|lia].
    apply (map_size_ne_0_lookup_2 _ (uid a)). exists d.
    now apply map_lookup_filter_Some_2. }
  destruct data as [id disable]. run.
  destruct (negb (role_is (token_role a) "super_admin")); simpl; [now apply Hkept|].
  destruct (truthy id); simpl; [|now apply Hkept].
  destruct (String.eqb_spec id (uid a)) as [Heq|Hne]; simpl; [now apply Hkept|].
  destruct (authUsers s !! id); simpl; [|now apply Hkept].
  destruct (admins s !! id); simpl; [|now apply Hkept].
  apply Hkept. now rewrite lookup_insert_ne.
Qed.

Lemma self_target_rejected_witness :
  token_role (mkAuthContext "sa1" (Some "super_admin")) = Some "super_admin" /\
  (exists msg,
     toggleAdminStatus (mkToggleData "sa1" true) FunctionsSamples.ctx_sa1
       FunctionsSamples.two_supers
       = (Throw (HttpsError invalid_argument msg), FunctionsSamples.two_supers)) /\
  (exists msg,
     deleteAdmin (mkDeleteData "sa1") FunctionsSamples.ctx_sa1
       FunctionsSamples.two_supers
       = (Throw (HttpsError invalid_argument msg), FunctionsSamples.two_supers)).
Proof.
  split; [reflexivity|].
  exact (self_target_rejected FunctionsSamples.two_supers
           (mkAuthContext "sa1" (Some "super_admin")) eq_refl).
Defined.

(** C2 (evaluation at the failing input). [sa1], the only enabled super
    admin, deletes the disabled super admin [sa2]: the guard throws
    [failed-precondition] inside the [try] block, the [catch] clause rewraps
    it, and the client receives [internal]; nothing is deleted. *)
Theorem deleteAdmin_last_super_admin_reports_internal :
  count_active_supers FunctionsSamples.one_active_super = 1%nat /\
  deleteAdmin (mkDeleteData "sa2") FunctionsSamples.ctx_sa1
    FunctionsSamples.one_active_super
  = (Throw (HttpsError internal "Cannot delete the last super admin"),
     FunctionsSamples.one_active_super).
Proof. split; vm_compute; reflexivity. Qed.

(** C3 (evaluation at the failing input). From two enabled super admins,
    [sa1] disables [sa2] and then [sa2], whose token still carries the
    claim, disables [sa1]: both calls succeed and no enabled super admin
    is left. *)
Theorem toggleAdminStatus_disables_last_super_admin :
  let r1 := toggleAdminStatus (mkToggleData "sa2" true)
              FunctionsSamples.ctx_sa1 FunctionsSamples.two_supers in
  let r2 := toggleAdminStatus (mkToggleData "sa1" true)
              FunctionsSamples.ctx_sa2 (after r1) in
  count_active_supers FunctionsSamples.two_supers = 2%nat /\
  outcome r1 = Ok (mkResponse true "Admin disabled successfully") /\
  count_active_supers (after r1) = 1%nat /\
  outcome r2 = Ok (mkResponse true "Admin disabled successfully") /\
  count_active_supers (after r2) = 0%nat.
Proof. vm_compute. repeat split; reflexivity. Qed.

End FunctionsProperties.

Section OrderStatusProperties.
Import Orders OrdersSpec.

(** The buttons of the order view are exactly the legal edges. *)
Lemma statusActions_legal (o : Order) (b : string) :
  b ∈ statusActions o <-> legal_transition (status o) b = true.
Proof.
  unfold statusActions, legal_transition.
  destruct (String.eqb_spec (status o) "cancelled") as [E|Hc];
    rewrite ?E; simpl.
  { rewrite andb_false_r. set_solver. }
  destruct (String.eqb_spec (status o) "delivered") as [E|Hd];
    rewrite ?E; simpl.
  { rewrite andb_false_r. set_solver. }
  rewrite !andb_true_r.
  destruct (String.eqb_spec (status o) "confirmed") as [E|H1];
    rewrite ?E; simpl;
    [|destruct (String.eqb_spec (status o) "packed") as [E|H2];
      rewrite ?E; simpl;
      [|destruct (String.eqb_spec (status o) "out_for_delivery") as [E|H3];
        rewrite ?E; simpl]];
    rewrite !elem_of_cons, elem_of_nil, ?orb_true_iff, ?String.eqb_eq;
    intuition congruence.
Qed.

(** C1 (as stated, refuted). [changeStatus] moves a delivered order back to
    confirmed although that edge is not legal: the write goes through, the
    status and the history change and the success toast is shown. *)
Lemma changeStatus_accepts_illegal_edge :
  let r := changeStatus "admin@freshmart.test" OrdersSamples.accepting
             "o1" "confirmed" OrdersSamples.one_order_store in
  legal_transition "delivered" "confirmed" = false /\
  status <$> OrdersSamples.one_order_store !! "o1" = Some "delivered" /\
  status <$> sr_store r !! "o1" = Some "confirmed" /\
  statusHistory <$> sr_store r !! "o1" =
    Some [mkHistoryEntry "delivered" "2026-01-05T10:00:00.000Z"
            "Order Delivered by admin" "admin@freshmart.test";
          mkHistoryEntry "confirmed" "2026-01-06T09:00:00.000Z"
            "Order Confirmed by admin" "admin@freshmart.test"] /\
  sr_toasts r = [mkToast "Updating status..." "info";
                 mkToast "Order Confirmed successfully!" "success"].
Proof. vm_compute. repeat split; reflexivity. Qed.

(** C1 (amended). The order view offers the action [changeStatus(id, b)]
    for an order in status [a] exactly when [(a, b)] is a legal edge.
    [changeStatus] itself checks nothing: once the dialog is confirmed and
    the store accepts the write, the order gets status [b], the new history
    entry and the new update time, whatever [a] and [b] are; when the dialog
    is declined or the write is refused, the store is left as it was. *)
Theorem changeStatus_unchecked :
  (forall (o : Order) (b : string),
     b ∈ statusActions o <-> legal_transition (status o) b = true) /\
  (forall mail env i b (store : gmap string Order) o,
     store !! i = Some o ->
     confirm_answer env = true -> remote_ok env = true ->
     let r := changeStatus mail env i b store in
     sr_store r =
       <[i := mkOrder (id o) (items o) (total o) (paymentMethod o) (address o)
                b
                (arrayUnion
                   (mkHistoryEntry b (nowISO env)
                      ("Order " +:+ formatStatus b +:+ " by admin") mail)
                   (statusHistory o))
                (createdAt o) (nowISO env)]> store /\
     sr_toasts r =
       [mkToast "Updating status..." "info";
        mkToast ("Order " +:+ formatStatus b +:+ " successfully!") "success"]) /\
  (forall mail env i b (store : gmap string Order),
     confirm_answer env = false \/ remote_ok env = false \/ store !! i = None ->
     sr_store (changeStatus mail env i b store) = store).
Proof.
  split; [exact statusActions_legal|]. split.
  - intros mail env i b store o Hdoc Hconfirm Hremote.
    unfold changeStatus, updateDoc. rewrite Hconfirm, Hdoc, Hremote. simpl.
    split; reflexivity.
  - intros mail env i b store H.
    unfold changeStatus, updateDoc.
    destruct (confirm_answer env); simpl; [|reflexivity].
    destruct (store !! i); [|reflexivity].
    destruct (remote_ok env); [|reflexivity].
    destruct H as [H|[H|H]]; discriminate.
Qed.

Lemma changeStatus_unchecked_witness :
  ("cancelled" ∈ statusActions (OrdersSamples.order_of "o2" 10 "packed" NoDate)) /\
  sr_store (changeStatus "admin@freshmart.test" OrdersSamples.accepting
              "o1" "delivered" OrdersSamples.one_order_store)
  = <["o1" := mkOrder "o1" [mkItem "Apples" 50 2] 100 "cod" None "delivered"
        (arrayUnion
           (mkHistoryEntry "delivered" "2026-01-06T09:00:00.000Z"
              "Order Delivered by admin" "admin@freshmart.test")
           (statusHistory OrdersSamples.delivered_order))
        (DateMs 1000) "2026-01-06T09:00:00.000Z"]>
      OrdersSamples.one_order_store /\
  sr_store (changeStatus "admin@freshmart.test"
              (mkStatusEnv false "2026-01-06T09:00:00.000Z" true)
              "o1" "packed" OrdersSamples.one_order_store)
  = OrdersSamples.one_order_store.
Proof.
  destruct changeStatus_unchecked as (Hview & Hwrite & Hkeep).
  split; [|split].
  - apply (proj2 (Hview (OrdersSamples.order_of "o2" 10 "packed" NoDate)
                    "cancelled")).
    reflexivity.
  - apply (Hwrite "admin@freshmart.test" OrdersSamples.accepting "o1"
             "delivered" OrdersSamples.one_order_store
             OrdersSamples.delivered_order); reflexivity.
  - apply Hkeep. left. reflexivity.
Defined.

End OrderStatusProperties.

Section StatisticsProperties.
Import Orders OrdersSpec.

Lemma is_pending_true (s : string) :
  is_pending s = true <-> s ∈ ["confirmed"; "packed"; "out_for_delivery"].
Proof.
  unfold is_pending. cbn [existsb].
  rewrite !elem_of_cons, elem_of_nil, !orb_true_iff, !String.eqb_eq.
  intuition congruence.
Qed.

Lemma on_or_after_true (o : Order) (start : Z) :
  on_or_after (createdAt o) start = true <-> created_since start o.
Proof.
  unfold on_or_after, created_since.
  destruct (createdAt o) as [| |ms].
  - split; [discriminate | intros (? & [=] & _)].
  - split; [discriminate | intros (? & [=] & _)].
  - rewrite Z.leb_le. split; [eauto | now intros (? & [= <-] & ?)].
Qed.

Lemma revenue_test_true (o : Order) (start : Z) :
  on_or_after (createdAt o) start && (status o !== "cancelled") = true
  <-> earns_since start o.
Proof.
  unfold earns_since.
  rewrite andb_true_iff, on_or_after_true, negb_true_iff, String.eqb_neq.
  reflexivity.
Qed.

(** The loop of [updateStats], from any values of the four counters. *)
Lemma updateStats_loop (today : Z) (orders : list Order) (acc : Stats) :
  fold_left (updateStats_step today) orders acc =
    mkStats
      (totalOrders acc + Z.of_nat (length orders))
      (pendingOrders acc +
         Z.of_nat (length (filter
           (fun o => status o ∈ ["confirmed"; "packed"; "out_for_delivery"])
           orders)))
      (deliveredOrders acc +
         Z.of_nat (length (filter (fun o => status o = "delivered") orders)))
      (todayRevenue acc +
         sumZ (total <$> filter (earns_since today) orders)).
Proof.
  revert acc. induction orders as [|o orders IH]; intros acc.
  - simpl. destruct acc; simpl. f_equal; lia.
  - cbn [fold_left]. rewrite IH. clear IH.
    unfold updateStats_step; simpl.
    rewrite !filter_cons.
    pose proof (is_pending_true (status o)) as Hp.
    pose proof (revenue_test_true o today) as Hr.
    destruct (is_pending (status o));
      destruct (decide (status o ∈ ["confirmed"; "packed"; "out_for_delivery"]))
        as [Hin|Hin];
      try (exfalso; apply Hin; now apply Hp);
      try (exfalso; apply Hp in Hin; discriminate);
    destruct (String.eqb_spec (status o) "delivered") as [Hd|Hd];
      destruct (decide (status o = "delivered")); try contradiction;
    destruct (on_or_after (createdAt o) today && (status o !== "cancelled"));
      destruct (decide (earns_since today o)) as [He|He];
      try (exfalso; apply He; now apply Hr);
      try (exfalso; apply Hr in He; discriminate);
    rewrite ?fmap_cons; unfold sumZ; cbn [foldr length]; f_equal; lia.
Qed.

Lemma loadOrderStats_loop (today : Z) (docs : list Order)
    (acc : Dashboard.OrderStats) :
  fold_left (Dashboard.loadOrderStats_step today) docs acc =
    Dashboard.mkOrderStats
      (Dashboard.totalOrders acc + Z.of_nat (length docs))
      (Dashboard.pendingOrders acc +
         Z.of_nat (length (filter
           (fun o => status o ∈ ["confirmed"; "packed"; "out_for_delivery"])
           docs)))
      (Dashboard.todayRevenue acc +
         sumZ (total <$> filter (earns_since today) docs)).
Proof.
  revert acc. induction docs as [|o docs IH]; intros acc.
  - simpl. destruct acc; simpl. f_equal; lia.
  - cbn [fold_left]. rewrite IH. clear IH.
    unfold Dashboard.loadOrderStats_step; simpl.
    rewrite !filter_cons.
    pose proof (is_pending_true (status o)) as Hp.
    pose proof (revenue_test_true o today) as Hr.
    destruct (is_pending (status o));
      destruct (decide (status o ∈ ["confirmed"; "packed"; "out_for_delivery"]))
        as [Hin|Hin];
      try (exfalso; apply Hin; now apply Hp);
      try (exfalso; apply Hp in Hin; discriminate);
    destruct (on_or_after (createdAt o) today && (status o !== "cancelled"));
      destruct (decide (earns_since today o)) as [He|He];
      try (exfalso; apply He; now apply Hr);
      try (exfalso; apply Hr in He; discriminate);
    rewrite ?fmap_cons; unfold sumZ; cbn [foldr length]; f_equal; lia.
Qed.

(** C6. For every order set the statistics pass yields: pending = the
    number of orders whose status is confirmed, packed or out_for_delivery;
    delivered = the number of delivered orders; today's revenue = the sum of
    [total] over the orders created on or after the local midnight of the
    current day whose status is not cancelled.  The dashboard computes the
    same pending count and revenue.  For totals 100 (today, confirmed),
    200 (today, cancelled) and 50 (yesterday, confirmed) the revenue is
    100. *)
Theorem updateStats_counts :
  (forall (clock : Clock) (orders : list Order),
     let stats := updateStats clock orders in
     totalOrders stats = Z.of_nat (length orders) /\
     pendingOrders stats =
       Z.of_nat (length (filter
         (fun o => status o ∈ ["confirmed"; "packed"; "out_for_delivery"])
         orders)) /\
     deliveredOrders stats =
       Z.of_nat (length (filter (fun o => status o = "delivered") orders)) /\
     todayRevenue stats =
       sumZ (total <$> filter
         (fun o => created_since (startOfToday clock) o /\
                   status o <> "cancelled") orders) /\
     Dashboard.pendingOrders (Dashboard.loadOrderStats clock orders)
       = pendingOrders stats /\
     Dashboard.todayRevenue (Dashboard.loadOrderStats clock orders)
       = todayRevenue stats) /\
  (forall (clock : Clock),
     let midnight := startOfToday clock in
     todayRevenue (updateStats clock
       [OrdersSamples.order_of "A" 100 "confirmed" (DateMs (midnight + 3600000));
        OrdersSamples.order_of "B" 200 "cancelled" (DateMs (midnight + 7200000));
        OrdersSamples.order_of "C" 50 "confirmed" (DateMs (midnight - 3600000))])
     = 100).
Proof.
  split.
  - intros clock orders stats. subst stats.
    unfold updateStats, Dashboard.loadOrderStats.
    rewrite updateStats_loop, loadOrderStats_loop. simpl.
    repeat split; reflexivity.
  - intros clock midnight. subst midnight.
    unfold updateStats. simpl.
    unfold updateStats_step, on_or_after. simpl.
    replace (startOfToday clock <=? startOfToday clock + 3600000) with true
      by (symmetry; apply Z.leb_le; lia).
    replace (startOfToday clock <=? startOfToday clock - 3600000) with false
      by (symmetry; apply Z.leb_gt; lia).
    rewrite andb_false_r. reflexivity.
Qed.

End StatisticsProperties.

Section FilterProperties.
Import Orders OrdersSpec.

Lemma append_String (c : ascii) (a b : string) :
  String c a +:+ b = String c (a +:+ b).
Proof. reflexivity. Qed.

Lemma prefix_true (a s : string) :
  String.prefix a s = true <-> exists post, s = a +:+ post.
Proof.
  revert s. induction a as [|c a IH]; intros s.
  - destruct s; simpl; split; eauto.
  - destruct s as [|d s]; simpl.
    + split; [discriminate | intros (post & [=])].
    + destruct (ascii_dec c d) as [->|Hne].
      * rewrite IH.
        split; intros (post & Hpost); exists post;
          rewrite append_String in *; congruence.
      * split; [discriminate|]. intros (post & Hpost).
        rewrite append_String in Hpost. congruence.
Qed.

(** [includes] decides occurrence. *)
Lemma includes_true (s sub : string) :
  JS.includes s sub = true <-> is_substring sub s.
Proof.
  unfold is_substring. induction s as [|c s IH].
  - cbn [JS.includes]. rewrite orb_false_r, prefix_true. split.
    + intros (post & ->). exists "", post. reflexivity.
    + intros (pre & post & H). destruct pre; [eauto | discriminate].
  - cbn [JS.includes]. rewrite orb_true_iff, prefix_true, IH. split.
    + intros [(post & ->) | (pre & post & ->)].
      * exists "", post. reflexivity.
      * exists (String c pre), post. reflexivity.
    + intros (pre & post & H). destruct pre as [|d pre].
      * left. exists post. exact H.
      * right. injection H as _ ->. eauto.
Qed.

Lemma not_substring_of_empty (term : string) :
  term <> "" -> ~ is_substring term "".
Proof.
  intros Hne (pre & post & H). destruct pre; [|discriminate].
  destruct term; [contradiction | discriminate].
Qed.

(** A truthiness test in front of [includes] changes nothing unless the
    search term is empty. *)
Lemma address_field_matches_true (o : Order) (field : Address -> string)
    (norm : string -> string) (term : string) :
  norm "" = "" -> term <> "" ->
  address_field_matches o field (fun v => JS.includes (norm v) term) = true
  <-> is_substring term (norm (address_field o field)).
Proof.
  intros Hnorm Hterm. unfold address_field_matches, address_field.
  destruct (address o) as [a|].
  - rewrite andb_true_iff, includes_true, truthy_true. split; [tauto|].
    intros H. split; [|exact H].
    intros Hempty. rewrite Hempty, Hnorm in H.
    now apply (not_substring_of_empty term).
  - rewrite Hnorm. split; [discriminate|].
    intros H. now apply not_substring_of_empty in H.
Qed.

Lemma matchesSearch_true (term : string) (o : Order) :
  matchesSearch term o = true <-> search_matches term o.
Proof.
  unfold matchesSearch, search_matches.
  destruct (String.eqb_spec term "") as [->|Hterm].
  - unfold truthy. simpl. tauto.
  - assert (Ht : truthy term = true) by now apply truthy_true.
    rewrite Ht. simpl.
    rewrite !orb_true_iff, includes_true.
    rewrite (address_field_matches_true o a_name JS.toLowerCase) by easy.
    rewrite (address_field_matches_true o a_phone (fun v => v)) by easy.
    rewrite (address_field_matches_true o a_email JS.toLowerCase) by easy.
    tauto.
Qed.

Lemma matchesStatus_true (f : string) (o : Order) :
  matchesStatus f o = true <-> status_matches f o.
Proof.
  unfold matchesStatus, status_matches, truthy.
  rewrite orb_true_iff, negb_involutive, !String.eqb_eq. reflexivity.
Qed.

Lemma matchesDate_true (f : string) (clock : Clock) (o : Order) :
  matchesDate f clock o = true <-> date_matches f clock o.
Proof.
  unfold matchesDate, date_matches, truthy.
  pose proof (on_or_after_true o (startOfToday clock)) as Ht.
  pose proof (on_or_after_true o (sevenDaysAgo clock)) as Hw.
  pose proof (on_or_after_true o (oneMonthAgo clock)) as Hm.
  destruct (String.eqb_spec f "") as [->|H0]; simpl.
  { split; [|reflexivity]. intros _. left. easy. }
  destruct (String.eqb_spec f "all") as [->|H1]; simpl.
  { split; [|reflexivity]. intros _. left. easy. }
  destruct (String.eqb_spec f "today") as [->|H2].
  { destruct (createdAt o); [intuition congruence|..];
      rewrite Ht; intuition congruence. }
  destruct (String.eqb_spec f "week") as [->|H3].
  { destruct (createdAt o); [intuition congruence|..];
      rewrite Hw; intuition congruence. }
  destruct (String.eqb_spec f "month") as [->|H4].
  { destruct (createdAt o); [intuition congruence|..];
      rewrite Hm; intuition congruence. }
  destruct (createdAt o); intuition congruence.
Qed.

(** A page of [renderTable]: ten rows from the offset of the page. *)
Lemma slice_page {A : Type} (l : list A) (n : Z) :
  1 <= n ->
  JS.slice l ((n - 1) * 10) (Z.min ((n - 1) * 10 + 10) (Z.of_nat (length l)))
  = take 10 (drop (Z.to_nat ((n - 1) * 10)) l).
Proof.
  intros Hn. unfold JS.slice.
  set (start := (n - 1) * 10). set (len := Z.of_nat (length l)).
  assert (Hstart : 0 <= start) by (unfold start; lia).
  assert (Hlen : 0 <= len) by (unfold len; lia).
  replace (start <? 0) with false by (symmetry; apply Z.ltb_ge; lia).
  replace (Z.min (start + 10) len <? 0) with false
    by (symmetry; apply Z.ltb_ge; lia).
  destruct (Z_lt_le_dec start len) as [Hin|Hout].
  - rewrite (Z.min_l start len) by lia.
    destruct (Z_le_gt_dec (start + 10) len) as [Hfull|Hlast].
    + f_equal. lia.
    + assert (Hshort : (length (drop (Z.to_nat start) l) <= 10)%nat).
      { rewrite length_drop. unfold len in *. lia. }
      rewrite (take_ge _ 10) by exact Hshort.
      apply take_ge. rewrite length_drop. unfold len in *. lia.
  - rewrite (drop_ge l (Z.to_nat start)) by (unfold len in *; lia).
    rewrite (Z.min_r start len) by lia.
    rewrite (drop_ge l (Z.to_nat len)) by (unfold len; lia).
    now rewrite !take_nil.
Qed.

Lemma renderTable_rows (page : Page) :
  1 <= currentPage page ->
  rows (renderTable page) =
    take 10 (drop (Z.to_nat ((currentPage page - 1) * 10)) (filteredOrders page)).
Proof.
  intros Hn. unfold renderTable, itemsPerPage.
  destruct (Z.eqb_spec (Z.of_nat (length (filteredOrders page))) 0) as [H0|H0].
  - destruct (filteredOrders page); [|discriminate].
    now rewrite drop_nil, take_nil.
  - simpl. now apply slice_page.
Qed.

(** C7 (as stated, refuted). The search term [fresh] is a case-insensitive
    substring of the address phone [0800-FRESH], no status filter is set and
    the date range is [all], so every predicate of the specification
    matches; the page nevertheless filters the order out, because the phone
    is compared as stored against the lower-cased term. *)
Lemma applyFilters_phone_is_case_sensitive :
  let ui := mkFilterInputs "fresh" "" "all" in
  let page := mkPage [OrdersSamples.vanity_phone_order] [] 1
                OrdersSamples.empty_stats in
  spec_match ui OrdersSamples.noon_clock OrdersSamples.vanity_phone_order /\
  OrdersSamples.vanity_phone_order ∈ allOrders page /\
  filteredOrders (applyFilters ui OrdersSamples.noon_clock page) = [].
Proof.
  split; [|split].
  - split; [|split].
    + right. right. left. exists "0800-", "". reflexivity.
    + left. reflexivity.
    + right. right. right. reflexivity.
  - apply list_elem_of_singleton. reflexivity.
  - vm_compute. reflexivity.
Qed.

(** Two more places where the page departs from the words of the
    specification: an order without a creation time passes the date filter
    [today], and the status filter value [all] matches no order. *)
Example applyFilters_keeps_undated_orders :
  let undated := OrdersSamples.order_of "X" 10 "packed" NoDate in
  filteredOrders
    (applyFilters (mkFilterInputs "" "" "today") OrdersSamples.noon_clock
       (mkPage [undated] [] 1 OrdersSamples.empty_stats))
  = [undated].
Proof. vm_compute. reflexivity. Qed.

Example applyFilters_status_all_matches_nothing :
  filteredOrders
    (applyFilters (mkFilterInputs "" "all" "") OrdersSamples.noon_clock
       (mkPage [OrdersSamples.order_a; OrdersSamples.order_b] [] 1
          OrdersSamples.empty_stats))
  = [].
Proof. vm_compute. reflexivity. Qed.

(** C7 (amended). An order is in the filtered set iff it is in the mirror
    and: the lower-cased, trimmed search term is empty or occurs in the
    lower-cased id, the lower-cased address name, the address phone as
    stored, or the lower-cased address email; the status filter is empty or
    equals the status; the date filter names none of today, week, month, or
    the order has no creation time, or its creation time is on or after the
    start of the named range.  The filtered set keeps the order of the
    mirror.  Applying the filters sets the current page to 1; navigating to
    page [n] touches neither the mirror nor the filtered set and shows the
    ten rows of the filtered set that start at offset [10 * (n - 1)]. *)
Theorem applyFilters_spec (ui : FilterInputs) (clock : Clock) (page : Page) :
  let page' := applyFilters ui clock page in
  let term := JS.trim (JS.toLowerCase (searchInput ui)) in
  (forall o,
     o ∈ filteredOrders page' <->
       o ∈ allOrders page /\ search_matches term o
       /\ status_matches (statusFilter ui) o
       /\ date_matches (dateFilter ui) clock o) /\
  sublist (filteredOrders page') (allOrders page) /\
  allOrders page' = allOrders page /\
  currentPage page' = 1 /\
  rows (renderTable page') = take 10 (filteredOrders page') /\
  (forall n, 1 <= n ->
     allOrders (changePage n page') = allOrders page' /\
     filteredOrders (changePage n page') = filteredOrders page' /\
     rows (renderTable (changePage n page')) =
       take 10 (drop (Z.to_nat (10 * (n - 1))) (filteredOrders page'))).
Proof.
  intros page' term. subst page'. unfold applyFilters. simpl. fold term.
  split; [|split; [|split; [|split; [|split]]]].
  - intros o. rewrite list_elem_of_In, filter_In, <- list_elem_of_In.
    rewrite !andb_true_iff, matchesSearch_true, matchesStatus_true,
      matchesDate_true. tauto.
  - induction (allOrders page) as [|o l IH]; simpl; [constructor|].
    destruct (_ && _); now constructor.
  - reflexivity.
  - reflexivity.
  - rewrite renderTable_rows by (simpl; lia). reflexivity.
  - intros n Hn. split; [reflexivity|]. split; [reflexivity|].
    rewrite renderTable_rows by (simpl; lia). simpl.
    now replace ((n - 1) * 10) with (10 * (n - 1)) by lia.
Qed.

Lemma applyFilters_spec_witness :
  let ui := mkFilterInputs " RAVI " "confirmed" "today" in
  let page := mkPage [OrdersSamples.vanity_phone_order;
                      OrdersSamples.delivered_order] [] 3
                OrdersSamples.empty_stats in
  let page' := applyFilters ui OrdersSamples.noon_clock page in
  OrdersSamples.vanity_phone_order ∈ filteredOrders page' /\
  currentPage page' = 1 /\
  rows (renderTable (changePage 2 page')) =
    take 10 (drop (Z.to_nat (10 * (2 - 1))) (filteredOrders page')).
Proof.
  intros ui page page'.
  pose proof (applyFilters_spec ui OrdersSamples.noon_clock page)
    as (Hin & _ & _ & Hpage & _ & Hnav).
  split; [|split].
  - apply Hin. split; [|split; [|split]].
    + apply elem_of_cons. left. reflexivity.
    + right. right. left. exists "", "". reflexivity.
    + right. reflexivity.
    + right. right. left. split; [reflexivity|].
      exists 5000. split; [reflexivity|]. vm_compute. discriminate.
  - exact Hpage.
  - apply (Hnav 2). lia.
Defined.

End FilterProperties.

Section ListenerProperties.
Import Firestore ListenerSpec.

(** The two ways of counting the added changes agree. *)
Lemma count_added {D : Type} (snap : QuerySnapshot D) :
  length (List.filter is_added (docChanges snap)) = count_changes added snap.
Proof.
  unfold count_changes, is_added.
  induction (docChanges snap) as [|c l IH]; [reflexivity|].
  rewrite filter_cons. simpl.
  destruct (decide (change_type c = added)) as [H|H].
  - rewrite bool_decide_eq_true_2 by exact H. simpl. now rewrite IH.
  - rewrite bool_decide_eq_false_2 by exact H. exact IH.
Qed.

Lemma some_added {D : Type} (snap : QuerySnapshot D) :
  existsb is_added (docChanges snap) = true
  <-> (0 < count_changes added snap)%nat.
Proof.
  rewrite <- count_added.
  induction (docChanges snap) as [|c l IH]; simpl.
  - split; [discriminate | lia].
  - destruct (is_added c); simpl; [split; [lia | reflexivity] | exact IH].
Qed.

(** The orders listener: at most one notification per snapshot, shown
    exactly when something was added and the mirror is larger than what
    was added. *)
Lemma onOrdersSnapshot_toasts (ui : Orders.FilterInputs) (clock : Orders.Clock)
    (snap : QuerySnapshot Orders.Order) (page : Orders.Page) :
  let n := count_changes added snap in
  (Orders.onOrdersSnapshot ui clock snap page).2 =
    if bool_decide (0 < n < length (docs snap))%nat
    then [mkToast (pretty (Z.of_nat n) +:+ " new order(s) received!") "info"]
    else [].
Proof.
  intros n. unfold Orders.onOrdersSnapshot. simpl.
  rewrite count_added. fold n.
  pose proof (some_added snap) as Hsome. fold n in Hsome.
  destruct (existsb is_added (docChanges snap)).
  - assert (Hn : (0 < n)%nat) by now apply Hsome.
    replace (Z.of_nat n >? 0) with true by (symmetry; apply Z.gtb_lt; lia).
    simpl.
    destruct (Z.gtb_spec (Z.of_nat (length (docs snap))) (Z.of_nat n)).
    + rewrite bool_decide_eq_true_2 by lia. reflexivity.
    + rewrite bool_decide_eq_false_2 by lia. reflexivity.
  - rewrite bool_decide_eq_false_2; [reflexivity|].
    intros [Hn _]. apply Hsome in Hn. discriminate.
Qed.

(** The users listener: one notification per added change when the mirror
    holds more than one user, none otherwise. *)
Lemma onUsersSnapshot_toasts (ui : Users.FilterInputs)
    (snap : QuerySnapshot Users.User) (page : Users.Page) :
  length (Users.onUsersSnapshot ui snap page).2 =
    if bool_decide (1 < length (docs snap))%nat
    then count_changes added snap else 0%nat.
Proof.
  unfold Users.onUsersSnapshot. simpl. rewrite <- count_added.
  destruct (Z.ltb_spec 1 (Z.of_nat (length (docs snap)))).
  - rewrite bool_decide_eq_true_2 by lia.
    induction (docChanges snap) as [|c l IH]; [reflexivity|].
    simpl. destruct (is_added c); simpl; now rewrite IH.
  - rewrite bool_decide_eq_false_2 by lia.
    induction (docChanges snap) as [|c l IH]; [reflexivity|].
    simpl. rewrite andb_false_r. exact IH.
Qed.

(** C8 (as stated, refuted). Two users are added in one snapshot to a
    mirror that already holds a user: the users listener shows two
    notifications for the one batch. *)
Lemma users_listener_notifies_per_record :
  let page := Users.mkPage [UsersSamples.asha] [UsersSamples.asha] 1 in
  let notify := fun snap =>
    (Users.onUsersSnapshot UsersSamples.no_filters snap page).2 in
  delivers (Users.allUsers page) UsersSamples.two_new_users /\
  notify UsersSamples.two_new_users =
    [mkToast "New user registered: Chitra" "success";
     mkToast "New user registered: Bala" "success"] /\
  ~ notifies_once_per_batch notify.
Proof.
  intros page notify.
  assert (Hdel : delivers (Users.allUsers page) UsersSamples.two_new_users).
  { split; vm_compute; lia. }
  split; [exact Hdel|]. split; [reflexivity|].
  intros Hclaim.
  destruct (Hclaim _ _ Hdel) as [Honce _].
  assert (Hlen : length (notify UsersSamples.two_new_users) = 1%nat).
  { apply Honce; [discriminate | vm_compute; lia]. }
  discriminate Hlen.
Qed.

(** The users listener on the first population of an empty mirror with
    two users: both are announced, although the comment in the callback
    reads "not initial load". *)
Example users_listener_notifies_on_first_load :
  delivers [] UsersSamples.first_load /\
  (Users.onUsersSnapshot UsersSamples.no_filters UsersSamples.first_load
     (Users.mkPage [] [] 1)).2
  = [mkToast "New user registered: Bala" "success";
     mkToast "New user registered: Asha" "success"].
Proof. split; [split; vm_compute; lia | reflexivity]. Qed.

(** The orders listener when one snapshot removes the only order of the
    mirror and adds another: nothing is announced. *)
Example orders_listener_silent_when_mirror_replaced :
  delivers [OrdersSamples.order_a] OrdersSamples.replaced /\
  (Orders.onOrdersSnapshot OrdersSamples.no_filters OrdersSamples.noon_clock
     OrdersSamples.replaced
     (Orders.mkPage [OrdersSamples.order_a] [OrdersSamples.order_a] 1
        OrdersSamples.empty_stats)).2
  = [].
Proof. split; [split; vm_compute; lia | reflexivity]. Qed.

(** C8 (amended). Each listener replaces its mirror by the documents of the
    snapshot.  The orders listener shows at most one notification per
    snapshot, and shows it exactly when the snapshot reports an added record
    and the mirror then holds more records than were added: never on the
    first population of an empty mirror, and once for additions delivered to
    a non-empty mirror that the snapshot does not empty.  The users
    listener, on a snapshot delivered to a non-empty mirror, shows one
    notification per added record when the mirror then holds more than one
    user, and none otherwise. *)
Theorem new_arrival_notifications :
  (forall ui clock (snap : QuerySnapshot Orders.Order) page,
     let r := Orders.onOrdersSnapshot ui clock snap page in
     Orders.allOrders r.1 = docs snap /\
     (length r.2 <= 1)%nat /\
     (length r.2 = 1%nat <->
        (0 < count_changes added snap < length (docs snap))%nat)) /\
  (forall ui clock (snap : QuerySnapshot Orders.Order) page,
     delivers (Orders.allOrders page) snap ->
     let toasts := (Orders.onOrdersSnapshot ui clock snap page).2 in
     (Orders.allOrders page = [] -> toasts = []) /\
     (Orders.allOrders page <> [] ->
      (0 < count_changes added snap)%nat ->
      (count_changes removed snap < length (Orders.allOrders page))%nat ->
      length toasts = 1%nat)) /\
  (forall ui (snap : QuerySnapshot Users.User) page,
     delivers (Users.allUsers page) snap ->
     Users.allUsers page <> [] ->
     let r := Users.onUsersSnapshot ui snap page in
     Users.allUsers r.1 = docs snap /\
     ((1 < length (docs snap))%nat ->
        length r.2 = count_changes added snap) /\
     ((length (docs snap) <= 1)%nat -> r.2 = []) /\
     ((0 < count_changes added snap)%nat ->
      (count_changes removed snap < length (Users.allUsers page))%nat ->
      length r.2 = count_changes added snap)).
Proof.
  split; [|split].
  - intros ui clock snap page r. subst r.
    rewrite onOrdersSnapshot_toasts.
    split; [reflexivity|].
    destruct (decide (0 < count_changes added snap < length (docs snap))%nat)
      as [H|H].
    + rewrite bool_decide_eq_true_2 by exact H. simpl.
      split; [lia|]. split; [intros _; exact H | reflexivity].
    + rewrite bool_decide_eq_false_2 by exact H. simpl.
      split; [lia|]. split; [discriminate | intros H'; contradiction].
  - intros ui clock snap page [Hrem Hsize] toasts. subst toasts.
    rewrite onOrdersSnapshot_toasts. split.
    + intros Hempty. rewrite Hempty in Hrem, Hsize. simpl in Hrem, Hsize.
      rewrite bool_decide_eq_false_2 by lia. reflexivity.
    + intros Hne Hadd Hsome. rewrite bool_decide_eq_true_2 by lia. reflexivity.
  - intros ui snap page [Hrem Hsize] Hne r. subst r.
    pose proof (onUsersSnapshot_toasts ui snap page) as Hlen.
    split; [reflexivity|]. split; [|split].
    + intros Hbig. rewrite Hlen. now rewrite bool_decide_eq_true_2 by exact Hbig.
    + intros Hsmall. rewrite bool_decide_eq_false_2 in Hlen by lia.
      now apply nil_length_inv.
    + intros Hadd Hsome. rewrite Hlen.
      destruct (Users.allUsers page) as [|u l]; [contradiction|].
      simpl in Hrem, Hsize, Hsome.
      rewrite bool_decide_eq_true_2 by lia. reflexivity.
Qed.

Lemma new_arrival_notifications_witness :
  let loaded :=
    (Orders.onOrdersSnapshot OrdersSamples.no_filters OrdersSamples.noon_clock
       OrdersSamples.first_load OrdersSamples.empty_page).1 in
  (Orders.onOrdersSnapshot OrdersSamples.no_filters OrdersSamples.noon_clock
     OrdersSamples.first_load OrdersSamples.empty_page).2 = [] /\
  length (Orders.onOrdersSnapshot OrdersSamples.no_filters
            OrdersSamples.noon_clock OrdersSamples.one_more loaded).2 = 1%nat /\
  length (Users.onUsersSnapshot UsersSamples.no_filters
            UsersSamples.two_new_users
            (Users.mkPage [UsersSamples.asha] [UsersSamples.asha] 1)).2 = 2%nat.
Proof.
  intros loaded.
  destruct new_arrival_notifications as (_ & Horders & Husers).
  split; [|split].
  - apply (Horders OrdersSamples.no_filters OrdersSamples.noon_clock
             OrdersSamples.first_load OrdersSamples.empty_page).
    + split; vm_compute; lia.
    + reflexivity.
  - apply (Horders OrdersSamples.no_filters OrdersSamples.noon_clock
             OrdersSamples.one_more loaded).
    + split; vm_compute; lia.
    + discriminate.
    + vm_compute; lia.
    + vm_compute; lia.
  - apply (Husers UsersSamples.no_filters UsersSamples.two_new_users
             (Users.mkPage [UsersSamples.asha] [UsersSamples.asha] 1)).
    + split; vm_compute; lia.
    + discriminate.
    + vm_compute; lia.
    + vm_compute; lia.
Defined.

End ListenerProperties.

Section CsvProperties.
Import CsvSpec.

Lemma append_assoc (a b c : string) : (a +:+ b) +:+ c = a +:+ (b +:+ c).
Proof.
  induction a as [|x a IH]; [reflexivity|].
  rewrite !append_String. now rewrite IH.
Qed.

Lemma append_nil_r (a : string) : a +:+ "" = a.
Proof.
  induction a as [|x a IH]; [reflexivity|].
  rewrite append_String. now rewrite IH.
Qed.

Lemma count_char_app (c : ascii) (a b : string) :
  count_char c (a +:+ b) = (count_char c a + count_char c b)%nat.
Proof.
  induction a as [|x a IH]; [reflexivity|].
  rewrite append_String. cbn [count_char]. rewrite IH. lia.
Qed.

(** Quoting cells and joining them with commas adds no line feed. *)
Lemma line_count_joined (cells : list string) :
  Forall no_line_break cells ->
  line_count (String.concat "," (JS.quoted <$> cells)) = 0%nat.
Proof.
  unfold line_count, no_line_break.
  induction 1 as [|v cells Hv Hcells IH]; [reflexivity|].
  rewrite fmap_cons. cbn [String.concat].
  assert (Hq : count_char (ascii_of_nat 10) (JS.quoted v) = 0%nat).
  { unfold JS.quoted. rewrite !count_char_app, Hv. reflexivity. }
  destruct (JS.quoted <$> cells) as [|w ws] eqn:Hrest; [exact Hq|].
  rewrite !count_char_app, Hq, IH. reflexivity.
Qed.

Lemma line_count_csv_line (cells : list string) :
  Forall no_line_break cells -> line_count (JS.csv_line cells) = 1%nat.
Proof.
  intros H. unfold JS.csv_line, line_count.
  rewrite count_char_app. fold (line_count (String.concat "," (JS.quoted <$> cells))).
  rewrite line_count_joined by exact H. reflexivity.
Qed.

(** The export loops add one line per record to the header line. *)
Lemma line_count_loop {R : Type} (cells : R -> list string) (records : list R)
    (csv : string) :
  Forall (fun r => Forall no_line_break (cells r)) records ->
  line_count
    (fold_left (fun csv r => csv +:+ JS.csv_line (cells r)) records csv)
  = (line_count csv + length records)%nat.
Proof.
  intros H. revert csv.
  induction H as [|r records Hr _ IH]; intros csv; simpl; [lia|].
  rewrite IH. unfold line_count at 1. rewrite count_char_app.
  fold (line_count csv). fold (line_count (JS.csv_line (cells r))).
  rewrite line_count_csv_line by exact Hr. lia.
Qed.

Lemma no_quote_cons (c : ascii) (v : string) :
  no_quote (String c v) ->
  Ascii.eqb c (ascii_of_nat 34) = false /\ no_quote v.
Proof.
  unfold no_quote. cbn [count_char].
  destruct (Ascii.eqb c (ascii_of_nat 34)); [discriminate|]. now split.
Qed.

(** Reading an enclosed field that holds no double quote. *)
Lemma read_quoted_field (v cur : string) (done : list string) (rest : string) :
  no_quote v ->
  read_record Quoted cur done (v +:+ JS.dquote +:+ rest)
  = read_record QuoteSeen (cur +:+ v) done rest.
Proof.
  revert cur. induction v as [|c v IH]; intros cur Hv.
  - rewrite append_nil_r. reflexivity.
  - apply no_quote_cons in Hv as [Hc Hv].
    rewrite append_String. cbn [read_record]. rewrite Hc.
    rewrite IH by exact Hv. unfold snoc. rewrite append_assoc. reflexivity.
Qed.

(** Reading back a line of the export templates. *)
Lemma read_csv_line (cells done : list string) :
  cells <> [] -> Forall no_quote cells ->
  read_record FieldStart "" done (JS.csv_line cells)
  = Some (done ++ cells)%list.
Proof.
  intros Hne Hcells. revert done.
  induction Hcells as [|v cells Hv Hcells IH]; [contradiction|]. intros done.
  unfold JS.csv_line. rewrite fmap_cons. cbn [String.concat].
  destruct cells as [|w cells].
  - simpl fmap. unfold JS.quoted. rewrite !append_assoc.
    change (JS.dquote +:+ v +:+ JS.dquote +:+ JS.newline)
      with (String (ascii_of_nat 34) (v +:+ JS.dquote +:+ JS.newline)).
    cbn [read_record]. change (Ascii.eqb (ascii_of_nat 34) (ascii_of_nat 34))
      with true. cbv iota.
    rewrite read_quoted_field by exact Hv. reflexivity.
  - rewrite fmap_cons. rewrite <- fmap_cons.
    unfold JS.quoted at 1. rewrite !append_assoc.
    change (JS.dquote +:+ v +:+ JS.dquote +:+ "," +:+
              String.concat "," (JS.quoted <$> w :: cells) +:+ JS.newline)
      with (String (ascii_of_nat 34)
              (v +:+ JS.dquote +:+ String ","
                 (String.concat "," (JS.quoted <$> w :: cells) +:+ JS.newline))).
    cbn [read_record]. change (Ascii.eqb (ascii_of_nat 34) (ascii_of_nat 34))
      with true. cbv iota.
    rewrite read_quoted_field by exact Hv.
    cbn [read_record]. change (Ascii.eqb "," (ascii_of_nat 34)) with false.
    change (Ascii.eqb "," ",") with true. cbv iota.
    fold (JS.csv_line (w :: cells)).
    rewrite IH by discriminate. rewrite <- app_assoc. reflexivity.
Qed.

(** The export loops write the header and then one line per record, in
    the order of the records. *)
Lemma export_loop_flat {R : Type} (cells : R -> list string)
    (records : list R) (csv : string) :
  fold_left (fun csv r => csv +:+ JS.csv_line (cells r)) records csv
  = csv +:+ flat ((fun r => JS.csv_line (cells r)) <$> records).
Proof.
  revert csv. induction records as [|r records IH]; intros csv; simpl.
  - now rewrite append_nil_r.
  - rewrite IH. now rewrite append_assoc.
Qed.

(** C9 (as stated, refuted). The name of the user holds double quotes; the
    line written for the user carries them unescaped, and is not a
    well-formed CSV row: reading it back fails. *)
Lemma generateCSV_leaves_quotes_unescaped :
  let cells := Users.csv_cells UsersSamples.nicknamed in
  let file := Users.generateCSV [UsersSamples.nicknamed] "users_export.csv" in
  JS.content file = Users.csv_header +:+ JS.csv_line cells /\
  read_record FieldStart "" [] (JS.csv_line cells) = None /\
  ~ row_of cells (JS.csv_line cells).
Proof.
  intros cells file.
  assert (Hread : read_record FieldStart "" [] (JS.csv_line cells) = None)
    by (vm_compute; reflexivity).
  split; [reflexivity|]. split; [exact Hread|].
  unfold row_of. rewrite Hread. discriminate.
Qed.

(** C9 (amended). An export of N records, N > 0 (an empty export produces
    no file), writes the header line and then one line per record, each
    value between double quotes and the values separated by commas.  When
    no value holds a line break the file has exactly N + 1 lines; when the
    values of a record hold no double quote its line is a well-formed CSV
    row holding exactly these values, embedded commas included.  Double
    quotes in values are written as they are. *)
Theorem csv_export_lines :
  (forall (users : list Users.User) (filename : string),
     let file := Users.generateCSV users filename in
     JS.content file =
       Users.csv_header +:+
       flat ((fun u => JS.csv_line (Users.csv_cells u)) <$> users) /\
     (Forall (fun u => Forall no_line_break (Users.csv_cells u)) users ->
        line_count (JS.content file) = S (length users)) /\
     (forall u, u ∈ users -> Forall no_quote (Users.csv_cells u) ->
        row_of (Users.csv_cells u) (JS.csv_line (Users.csv_cells u)))) /\
  (forall (isoDate : string) (page : Users.Page),
     (Users.filteredUsers page = [] ->
        (Users.exportToExcel isoDate page).1 = None) /\
     (Users.filteredUsers page <> [] ->
        (Users.exportToExcel isoDate page).1 =
          Some (Users.generateCSV (Users.filteredUsers page)
                  ("users_export_" +:+ isoDate +:+ ".csv")))) /\
  (forall (fmt : Z -> string) (orders : list Orders.Order),
     let csv := Orders.export_csv fmt orders in
     csv =
       Orders.export_header +:+
       flat ((fun o => JS.csv_line (Orders.export_cells fmt o)) <$> orders) /\
     (Forall (fun o => Forall no_line_break (Orders.export_cells fmt o)) orders ->
        line_count csv = S (length orders)) /\
     (forall o, o ∈ orders -> Forall no_quote (Orders.export_cells fmt o) ->
        row_of (Orders.export_cells fmt o)
          (JS.csv_line (Orders.export_cells fmt o)))) /\
  (forall (fmt : Z -> string) clock isoDate period (page : Orders.Page),
     let selected :=
       if period !== "all"
       then List.filter (Orders.in_period period clock) (Orders.allOrders page)
       else Orders.allOrders page in
     (selected = [] ->
        (Orders.exportOrders fmt clock isoDate period page).1 = None) /\
     (selected <> [] ->
        JS.content <$> (Orders.exportOrders fmt clock isoDate period page).1 =
          Some (Orders.export_csv fmt selected))).
Proof.
  split; [|split; [|split]].
  - intros users filename file. subst file.
    unfold Users.generateCSV. cbn [JS.content].
    split; [apply export_loop_flat|]. split.
    + intros H. rewrite (line_count_loop Users.csv_cells) by exact H.
      reflexivity.
    + intros u _ Hu. unfold row_of.
      rewrite read_csv_line by (exact Hu || discriminate). reflexivity.
  - intros isoDate page. unfold Users.exportToExcel.
    split; intros H.
    + now rewrite H.
    + destruct (Users.filteredUsers page); [contradiction | reflexivity].
  - intros fmt orders csv. subst csv. unfold Orders.export_csv.
    split; [apply export_loop_flat|]. split.
    + intros H.
      rewrite (line_count_loop (Orders.export_cells fmt)) by exact H.
      reflexivity.
    + intros o _ Ho. unfold row_of.
      rewrite read_csv_line by (exact Ho || discriminate). reflexivity.
  - intros fmt clock isoDate period page selected.
    unfold Orders.exportOrders. fold selected.
    split; intros H.
    + now rewrite H.
    + destruct selected; [contradiction | reflexivity].
Qed.

Lemma csv_export_lines_witness :
  let users := [UsersSamples.asha; UsersSamples.comma_city] in
  line_count (JS.content (Users.generateCSV users "users_export.csv")) = 3%nat /\
  row_of (Users.csv_cells UsersSamples.comma_city)
    (JS.csv_line (Users.csv_cells UsersSamples.comma_city)) /\
  (Users.exportToExcel "2026-03-01" (Users.mkPage users [] 1)).1 = None.
Proof.
  intros users.
  destruct csv_export_lines as (Husers & Hexport & _ & _).
  destruct (Husers users "users_export.csv") as (_ & Hlines & Hrow).
  split; [|split].
  - apply Hlines. repeat constructor.
  - apply Hrow.
    + apply elem_of_cons. right. apply elem_of_cons. left. reflexivity.
    + repeat constructor.
  - apply (proj1 (Hexport "2026-03-01" (Users.mkPage users [] 1))).
    reflexivity.
Defined.

End CsvProperties.

Section CallableProperties.
Import Functions.

Ltac step_callable :=
  unfold toggleAdminStatus, deleteAdmin, verifySuperAdmin, throw_if, try_catch,
    throw, admins_get, query_active_super_admins, auth_deleteUser,
    auth_updateUser, admins_update, admins_delete, now, caller_uid,
    outcome, after, mbind, M_bind, mret, M_ret; simpl.

(** X1. The gate of the admin-management callables: a call without
    [context.auth] is refused with [unauthenticated], a call whose token
    role is not [super_admin] with [permission-denied], whatever the
    arguments; neither touches the backend. *)
Theorem admin_callables_gate (context : CallableContext) (s : Backend)
    (toggle : ToggleData) (del : DeleteData) :
  (auth context = None ->
     toggleAdminStatus toggle context s
       = (Throw (HttpsError unauthenticated "User must be authenticated"), s) /\
     deleteAdmin del context s
       = (Throw (HttpsError unauthenticated "User must be authenticated"), s)) /\
  (forall a, auth context = Some a -> token_role a <> Some "super_admin" ->
     toggleAdminStatus toggle context s
       = (Throw (HttpsError permission_denied
                   "Only super admins can perform this action"), s) /\
     deleteAdmin del context s
       = (Throw (HttpsError permission_denied
                   "Only super admins can perform this action"), s)).
Proof.
  split.
  - intros Hnone. step_callable. rewrite Hnone. split; reflexivity.
  - intros a Hsome Hrole. step_callable. rewrite Hsome.
    assert (Hno : role_is (token_role a) "super_admin" = false).
    { destruct (token_role a) as [r|]; simpl; [|reflexivity].
      apply String.eqb_neq. congruence. }
    rewrite Hno. split; reflexivity.
Qed.

Lemma admin_callables_gate_witness :
  let plain := mkContext (Some (mkAuthContext "ad3" (Some "admin"))) in
  toggleAdminStatus (mkToggleData "sa1" true) plain FunctionsSamples.two_supers
    = (Throw (HttpsError permission_denied
                "Only super admins can perform this action"),
       FunctionsSamples.two_supers) /\
  deleteAdmin (mkDeleteData "sa1") (mkContext None) FunctionsSamples.two_supers
    = (Throw (HttpsError unauthenticated "User must be authenticated"),
       FunctionsSamples.two_supers).
Proof.
  intros plain. split.
  - apply (proj2 (admin_callables_gate plain FunctionsSamples.two_supers
                    (mkToggleData "sa1" true) (mkDeleteData "sa1"))
             (mkAuthContext "ad3" (Some "admin")));
      [reflexivity | discriminate].
  - apply (proj1 (admin_callables_gate (mkContext None)
                    FunctionsSamples.two_supers
                    (mkToggleData "sa1" true) (mkDeleteData "sa1"))).
    reflexivity.
Defined.

Lemma deleteAdmin_keeps_a_super_admin_witness :
  (1 <= count_active_supers FunctionsSamples.two_supers)%nat /\
  (1 <= count_active_supers
          (after (deleteAdmin (mkDeleteData "sa2") FunctionsSamples.ctx_sa1
                    FunctionsSamples.two_supers)))%nat.
Proof.
  assert (H : (1 <= count_active_supers FunctionsSamples.two_supers)%nat)
    by (vm_compute; lia).
  split; [exact H|].
  exact (deleteAdmin_keeps_a_super_admin (mkDeleteData "sa2")
           FunctionsSamples.ctx_sa1 FunctionsSamples.two_supers H).
Defined.

Lemma toggleAdminStatus_enabled_caller_witness :
  (1 <= count_active_supers
          (after (toggleAdminStatus (mkToggleData "sa2" true)
                    FunctionsSamples.ctx_sa1 FunctionsSamples.two_supers)))%nat.
Proof.
  apply (toggleAdminStatus_enabled_caller (mkToggleData "sa2" true)
           (mkAuthContext "sa1" (Some "super_admin"))
           FunctionsSamples.two_supers
           (FunctionsSamples.super_doc "sa1@freshmart.test" false)).
  - vm_compute. reflexivity.
  - split; reflexivity.
Defined.


(** X4. [toggleAdminStatus] is not all or nothing: the account is updated
    before the document, so for a target that has an account but no
    [admins] document (any ordinary user, for instance) the call throws
    [internal] and yet leaves the account with the requested [disabled]
    flag. *)
Theorem toggleAdminStatus_partial_write (s : Backend) (a : AuthContext)
    (id : string) (disable : bool) (account : AuthRecord)
    (Hrole : token_role a = Some "super_admin")
    (Hid : id <> "") (Hother : id <> uid a)
    (Haccount : authUsers s !! id = Some account)
    (Hdoc : admins s !! id = None) :
  let r := toggleAdminStatus (mkToggleData id disable) (mkContext (Some a)) s in
  (exists msg, outcome r = Throw (HttpsError internal msg)) /\
  authUsers (after r) !! id = Some (mkAuthRecord (au_email account) disable) /\
  admins (after r) = admins s.
Proof.
  apply truthy_true in Hid. apply String.eqb_neq in Hother.
  step_callable. rewrite Hrole. simpl. rewrite Hid, Hother. simpl.
  rewrite Haccount. simpl. rewrite Hdoc. simpl.
  split; [eauto|]. split; [|reflexivity]. apply lookup_insert_eq.
Qed.

Lemma toggleAdminStatus_partial_write_witness :
  let s := mkBackend ∅ (<["cust7" := mkAuthRecord "c7@example.test" false]> ∅)
             1000 in
  let r := toggleAdminStatus (mkToggleData "cust7" true)
             FunctionsSamples.ctx_sa1 s in
  (exists msg, outcome r = Throw (HttpsError internal msg)) /\
  authUsers (after r) !! "cust7" = Some (mkAuthRecord "c7@example.test" true) /\
  admins (after r) = admins s.
Proof.
  intros s r.
  apply (toggleAdminStatus_partial_write s
           (mkAuthContext "sa1" (Some "super_admin")) "cust7" true
           (mkAuthRecord "c7@example.test" false));
    try reflexivity; discriminate.
Defined.

(** X5. What a successful [toggleAdminStatus] means: the caller is not the
    target, the target had an account and a document, and afterwards both
    carry the requested [disabled] flag; the document keeps its name, email,
    role and creator and records the caller and the server time; nothing
    else changes. *)
Theorem toggleAdminStatus_success (data : ToggleData)
    (context : CallableContext) (s : Backend) (response : Response) :
  let r := toggleAdminStatus data context s in
  let id := tg_adminId data in
  outcome r = Ok response ->
  exists a d account,
    auth context = Some a /\ id <> uid a /\
    admins s !! id = Some d /\ authUsers s !! id = Some account /\
    admins (after r) =
      <[id := mkAdminDoc (name d) (email d) (role d) (createdBy d)
                (tg_disable data) (Some (serverTimestamp s)) (uid a)]>
        (admins s) /\
    authUsers (after r) =
      <[id := mkAuthRecord (au_email account) (tg_disable data)]>
        (authUsers s).
Proof.
  destruct data as [id disable]. step_callable.
  destruct (auth context) as [a|]; simpl; [|discriminate].
  destruct (negb (role_is (token_role a) "super_admin")); simpl; [discriminate|].
  destruct (truthy id); simpl; [|discriminate].
  destruct (String.eqb_spec id (uid a)) as [Heq|Hne]; simpl; [discriminate|].
  destruct (authUsers s !! id) as [account|] eqn:Haccount; simpl;
    [|discriminate].
  destruct (admins s !! id) as [d|] eqn:Hdoc; simpl; [|discriminate].
  intros _. exists a, d, account. repeat split; auto.
Qed.

Lemma toggleAdminStatus_success_witness :
  let r := toggleAdminStatus (mkToggleData "ad3" true)
             FunctionsSamples.ctx_sa1 FunctionsSamples.two_supers in
  disabled <$> admins (after r) !! "ad3" = Some true /\
  au_disabled <$> authUsers (after r) !! "ad3" = Some true.
Proof.
  intros r.
  destruct (toggleAdminStatus_success (mkToggleData "ad3" true)
              FunctionsSamples.ctx_sa1 FunctionsSamples.two_supers
              (mkResponse true "Admin disabled successfully") eq_refl)
    as (a & d & account & _ & _ & _ & _ & Hdocs & Haccounts).
  fold r in Hdocs, Haccounts. rewrite Hdocs, Haccounts.
  simpl. rewrite !lookup_insert_eq. split; reflexivity.
Defined.

End CallableProperties.

Section SessionProperties.
Import Auth AuthSession.


End SessionProperties.

Section DashboardListenerProperties.
Import Firestore ListenerSpec Orders.




End DashboardListenerProperties.

Section PaginationProperties.
Import Orders OrdersView.

Lemma totalPages_spec (page : Page) :
  let len := Z.of_nat (length (filteredOrders page)) in
  let total := totalPages (renderTable page) in
  0 <= total /\ len <= 10 * total /\ 10 * (total - 1) < len \/
  len = 0 /\ total = 0.
Proof.
  unfold renderTable, itemsPerPage.
  destruct (Z.eqb_spec (Z.of_nat (length (filteredOrders page))) 0) as [H0|H0];
    simpl; [now right|]. left.
  set (len := Z.of_nat (length (filteredOrders page))) in *.
  assert (Hlen : 0 < len) by (unfold len in *; lia).
  replace (len + 10 - 1) with (len + 9) by lia.
  pose proof (Z.div_mod (len + 9) 10 ltac:(lia)) as Hdiv.
  pose proof (Z.mod_pos_bound (len + 9) 10 ltac:(lia)) as Hmod.
  lia.
Qed.

Lemma page_rows (page : Page) (n : nat) :
  (1 <= n)%nat ->
  rows (renderTable (changePage (Z.of_nat n) page))
  = take 10 (drop ((n - 1) * 10) (filteredOrders page)).
Proof.
  intros Hn. rewrite renderTable_rows by (simpl; lia). simpl.
  do 2 f_equal. lia.
Qed.

(** The first [k] pages, one after the other, are the first [10 * k]
    rows. *)
Lemma pages_concat {A : Type} (l : list A) (k : nat) :
  concat ((fun n => take 10 (drop ((n - 1) * 10) l)) <$> seq 1 k)
  = take (k * 10) l.
Proof.
  induction k as [|k IH]; [reflexivity|].
  rewrite seq_S, fmap_app, concat_app, IH. simpl.
  rewrite app_nil_r. replace (k - 0)%nat with k by lia.
  rewrite take_take_drop. f_equal. lia.
Qed.

(** X9. Paging loses nothing and repeats nothing: the tables of the pages
    1 to [totalPages], one after the other, are exactly the filtered set in
    its order; each of these pages has between one and ten rows; every
    page after the last one is empty. *)
Theorem pages_partition (page : Page) :
  concat (all_pages page) = filteredOrders page /\
  Forall (fun table => (1 <= length table <= 10)%nat) (all_pages page) /\
  (forall n, totalPages (renderTable page) < n ->
     rows (renderTable (changePage n page)) = []).
Proof.
  pose proof (totalPages_spec page) as Htotal. simpl in Htotal.
  unfold all_pages.
  set (total := totalPages (renderTable page)) in *.
  set (l := filteredOrders page) in *.
  split; [|split].
  - rewrite (list_fmap_ext _
               (fun n => take 10 (drop ((n - 1) * 10) l)) (seq 1 (Z.to_nat total))).
    + rewrite pages_concat. apply take_ge. lia.
    + intros i n Hn. apply lookup_seq in Hn as [-> _].
      apply page_rows. lia.
  - apply Forall_fmap, Forall_forall. intros n Hn.
    apply elem_of_seq in Hn. simpl.
    rewrite page_rows by lia. fold l.
    rewrite length_take, length_drop. lia.
  - intros n Hn.
    rewrite renderTable_rows by (simpl; lia). simpl. fold l.
    rewrite drop_ge by lia. apply take_nil.
Qed.

Lemma in_range_page_not_empty (page : Page) (n : Z) :
  1 <= n <= totalPages (renderTable page) ->
  rows (renderTable (changePage n page)) <> [].
Proof.
  intros Hn. pose proof (totalPages_spec page) as Htotal. simpl in Htotal.
  rewrite renderTable_rows by (simpl; lia). simpl.
  intros Hnil. apply take_nil_inv in Hnil as [Hten|Hdrop]; [discriminate|].
  apply (f_equal length) in Hdrop. rewrite length_drop in Hdrop.
  change (length (@nil Order)) with 0%nat in Hdrop. lia.
Qed.

(** X10. The page controls never lead out of range.  When the current page
    lies between 1 and [totalPages], every page a click on the controls can
    ask for (a numbered button, or an arrow that is not disabled) lies in
    that range too, and its table is not empty; the first, the last and the
    current page are always among the numbered buttons. *)
Theorem pagination_stays_in_range (page : Page) :
  let total := totalPages (renderTable page) in
  let controls := renderPagination (currentPage page) total in
  1 <= currentPage page <= total ->
  (forall t, t ∈ click_targets controls ->
     1 <= t <= total /\ rows (renderTable (changePage t page)) <> []) /\
  (1 < total ->
     PageButton 1 (1 =? currentPage page) ∈ controls /\
     PageButton total (total =? currentPage page) ∈ controls /\
     PageButton (currentPage page) true ∈ controls).
Proof.
  intros total controls Hcur. subst controls.
  unfold renderPagination.
  destruct (Z.leb_spec total 1) as [Hone|Hmany].
  { split; [|lia]. intros t Ht. simpl in Ht. now apply elem_of_nil in Ht. }
  split.
  - intros t Ht.
    assert (Hrange : 1 <= t <= total); [|split; [exact Hrange|]].
    2: { now apply in_range_page_not_empty. }
    unfold click_targets in Ht.
    apply list_elem_of_In, in_flat_map in Ht as (c & Hc & Ht).
    apply in_app_or in Hc as [Hc|Hc]; [|apply in_app_or in Hc as [Hc|Hc]].
    + destruct Hc as [<-|[]]. simpl in Ht.
      destruct (Z.eqb_spec (currentPage page) 1); [destruct Ht|].
      destruct Ht as [<-|[]]. lia.
    + apply in_flat_map in Hc as (i & Hi & Hc). apply in_seq in Hi.
      unfold pagination_item in Hc.
      destruct (_ || _ || _).
      * destruct Hc as [<-|[]]. destruct Ht as [<-|[]]. lia.
      * destruct (_ || _); [|destruct Hc].
        destruct Hc as [<-|[]]. destruct Ht.
    + destruct Hc as [<-|[]]. simpl in Ht.
      destruct (Z.eqb_spec (currentPage page) total); [destruct Ht|].
      destruct Ht as [<-|[]]. lia.
  - intros _.
    assert (Hbutton : forall i, 1 <= i <= total ->
              (i = 1 \/ i = total \/ i = currentPage page) ->
              PageButton i (i =? currentPage page)
              ∈ flat_map
                  (fun i => pagination_item (currentPage page) total (Z.of_nat i))
                  (seq 1 (Z.to_nat total))).
    { intros i Hi Hwhich. apply list_elem_of_In, in_flat_map.
      exists (Z.to_nat i). split; [apply in_seq; lia|].
      rewrite Z2Nat.id by lia. unfold pagination_item.
      replace ((i =? 1) || (i =? total)
               || ((currentPage page - 1 <=? i) && (i <=? currentPage page + 1)))
        with true; [now left|].
      symmetry. rewrite !orb_true_iff, andb_true_iff, !Z.eqb_eq, !Z.leb_le.
      lia. }
    repeat split; apply elem_of_app; right; apply elem_of_app; left.
    + apply Hbutton; lia.
    + apply Hbutton; lia.
    + replace true with (currentPage page =? currentPage page)
        by apply Z.eqb_refl.
      apply Hbutton; lia.
Qed.

Lemma pages_partition_witness :
  length (concat (OrdersView.all_pages ViewSamples.long_page)) = 25%nat /\
  rows (renderTable (changePage 4 ViewSamples.long_page)) = [].
Proof.
  destruct (pages_partition ViewSamples.long_page) as (Hall & _ & Hpast).
  split.
  - rewrite Hall. reflexivity.
  - apply Hpast. vm_compute. reflexivity.
Defined.

Lemma pagination_stays_in_range_witness :
  click_targets
    (renderPagination 2 (totalPages (renderTable ViewSamples.long_page)))
  = [1; 1; 2; 3; 3] /\
  rows (renderTable (changePage 3 ViewSamples.long_page))
  = replicate 5 OrdersSamples.order_a /\
  rows (renderTable (changePage 3 ViewSamples.long_page)) <> [].
Proof.
  split; [reflexivity|]. split; [reflexivity|].
  apply (proj1 (pagination_stays_in_range ViewSamples.long_page
                  ltac:(vm_compute; split; discriminate)) 3).
  match goal with
  | |- _ ∈ ?l => replace l with [1; 1; 2; 3; 3] by reflexivity
  end.
  rewrite !elem_of_cons. auto.
Defined.

End PaginationProperties.

Section TimelineProperties.
Import Orders OrdersView.

Lemma find_first_None {A : Type} (p : A -> bool) (l : list A) :
  find_first p l = None -> forall x, x ∈ l -> p x = false.
Proof.
  induction l as [|y l IH]; intros Hnone x Hx.
  - now apply elem_of_nil in Hx.
  - simpl in Hnone. destruct (p y) eqn:Hy; [discriminate|].
    apply elem_of_cons in Hx as [->|Hx]; [exact Hy | now apply IH].
Qed.

Lemma find_first_app {A : Type} (p : A -> bool) (l : list A) (e : A) :
  find_first p (l ++ [e]) =
    match find_first p l with
    | Some x => Some x
    | None => if p e then Some e else None
    end.
Proof.
  induction l as [|y l IH]; simpl; [reflexivity|].
  destruct (p y); [reflexivity | exact IH].
Qed.

(** The first entry of a status in a history extended by [arrayUnion]. *)
Lemma find_first_arrayUnion (p : HistoryEntry -> bool) (e : HistoryEntry)
    (l : list HistoryEntry) :
  find_first p (arrayUnion e l) =
    match find_first p l with
    | Some x => Some x
    | None => if p e then Some e else None
    end.
Proof.
  unfold arrayUnion. destruct (bool_decide (e ∈ l)) eqn:Hin.
  - apply bool_decide_eq_true in Hin.
    destruct (find_first p l) eqn:Hfind; [reflexivity|].
    now rewrite (find_first_None p l Hfind e Hin).
  - apply find_first_app.
Qed.

(** X11. The tracking timeline after a status change.  Once
    [changeStatus] has moved an order to a status [b] of the chain, the
    timeline of the stored order marks the step of [b], and no other, as
    active.  Under that step it shows the time of the first history entry
    for [b]: the time of this change when the order enters [b] for the
    first time, the time of the earlier entry otherwise.  The times under
    the other steps are those shown before the change. *)
Theorem timeline_after_changeStatus (mail : string) (env : StatusEnv)
    (i b : string) (store : gmap string Order) (o : Order) :
  store !! i = Some o ->
  confirm_answer env = true -> remote_ok env = true ->
  b ∈ ["confirmed"; "packed"; "out_for_delivery"; "delivered"] ->
  exists o',
    sr_store (changeStatus mail env i b store) !! i = Some o' /\
    forall step, step ∈ renderTrackingTimeline o' ->
      (stepClass step = "active" <-> step_status step = b) /\
      (step_status step = b ->
         step_timestamp step =
           match find_first (fun h => h_status h === b) (statusHistory o) with
           | Some h => h_timestamp h
           | None => nowISO env
           end) /\
      (step_status step <> b ->
         exists before,
           before ∈ renderTrackingTimeline o /\
           step_status before = step_status step /\
           step_timestamp before = step_timestamp step).
Proof.
  intros Hdoc Hconfirm Hremote Hb.
  eexists. split.
  { unfold changeStatus, updateDoc. rewrite Hconfirm, Hdoc, Hremote. simpl.
    apply lookup_insert_eq. }
  set (entry := mkHistoryEntry b (nowISO env)
                  ("Order " +:+ formatStatus b +:+ " by admin") mail).
  assert (Hstamp : forall ci ci0 k s,
            step_timestamp
              (timeline_step
                 (mkOrder (id o) (items o) (total o) (paymentMethod o)
                    (address o) b (arrayUnion entry (statusHistory o))
                    (createdAt o) (nowISO env)) ci k s)
            = if b === s then
                match find_first (fun h => h_status h === b) (statusHistory o)
                with
                | Some h => h_timestamp h
                | None => nowISO env
                end
              else step_timestamp (timeline_step o ci0 k s)).
  { intros ci ci0 k s. unfold timeline_step. simpl.
    rewrite find_first_arrayUnion. simpl.
    destruct (String.eqb_spec b s) as [<-|Hne].
    - now destruct (find_first _ (statusHistory o)).
    - now destruct (find_first _ (statusHistory o)). }
  intros step Hstep.
  unfold renderTrackingTimeline in Hstep. cbn [imap] in Hstep.
  unfold compose in Hstep. simpl status in Hstep.
  rewrite !elem_of_cons, elem_of_nil in Hb.
  rewrite !elem_of_cons, elem_of_nil in Hstep.
  assert (Hshown : forall k s,
            (k < 4)%nat ->
            ["confirmed"; "packed"; "out_for_delivery"; "delivered"] !! k
              = Some s ->
            exists before,
              before ∈ renderTrackingTimeline o /\
              step_status before = s /\
              forall ci, step_timestamp before
                         = step_timestamp (timeline_step o ci (Z.of_nat k) s)).
  { intros k s Hk Hs.
    exists (timeline_step o
              (indexOf ["confirmed"; "packed"; "out_for_delivery"; "delivered"]
                 (status o)) (Z.of_nat k) s).
    split; [|split; [reflexivity | reflexivity]].
    unfold renderTrackingTimeline. cbn [imap]. unfold compose.
    destruct k as [|[|[|[|k]]]]; [..|lia]; injection Hs as <-;
      rewrite !elem_of_cons; auto. }
  destruct Hb as [->|[->|[->|[->|[]]]]];
    destruct Hstep as [->|[->|[->|[->|[]]]]];
    (split;
     [ split; intros Hc;
       first [ reflexivity
             | discriminate Hc
             | unfold timeline_step in Hc; simpl in Hc; discriminate Hc ]
     | split; intros Hs;
       first [ discriminate Hs
             | exfalso; apply Hs; reflexivity
             | rewrite (Hstamp _ 0 _ _); reflexivity
             | idtac ] ]).
  all: match goal with
       | |- exists before, _ ∈ _ /\ step_status before
                                    = step_status (timeline_step _ _ (Z.of_nat ?k) ?s)
                           /\ _ =>
           destruct (Hshown k s ltac:(lia) eq_refl) as (before & Hin & Hst & Hts);
           exists before; split; [exact Hin|]; split; [exact Hst|];
           rewrite (Hstamp _ 0 _ _); apply Hts
       end.
Qed.

Lemma timeline_after_changeStatus_witness :
  exists o',
    sr_store (changeStatus "admin@freshmart.test" OrdersSamples.accepting
                "o7" "confirmed" ViewSamples.packed_store) !! "o7" = Some o' /\
    forall step, step ∈ renderTrackingTimeline o' ->
      step_status step = "confirmed" ->
      stepClass step = "active" /\
      step_timestamp step = "2026-01-04T08:00:00.000Z".
Proof.
  destruct (timeline_after_changeStatus "admin@freshmart.test"
              OrdersSamples.accepting "o7" "confirmed"
              ViewSamples.packed_store ViewSamples.packed_order)
    as (o' & Hstored & Hsteps).
  - reflexivity.
  - reflexivity.
  - reflexivity.
  - apply elem_of_cons. left. reflexivity.
  - exists o'. split; [exact Hstored|].
    intros step Hin Hstatus.
    destruct (Hsteps step Hin) as (Hactive & Htime & _).
    split; [now apply Hactive | now apply Htime].
Defined.

End TimelineProperties.

Section StatusChangeProperties.
Import Orders.

Lemma arrayUnion_prefix (e : HistoryEntry) (l : list HistoryEntry) :
  l `prefix_of` arrayUnion e l /\
  (length (arrayUnion e l) <= S (length l))%nat.
Proof.
  unfold arrayUnion. destruct (bool_decide (e ∈ l)).
  - split; [reflexivity | lia].
  - split; [now apply prefix_app_r | rewrite length_app; simpl; lia].
Qed.

Lemma arrayUnion_idempotent (e : HistoryEntry) (l : list HistoryEntry) :
  arrayUnion e (arrayUnion e l) = arrayUnion e l.
Proof.
  unfold arrayUnion. destruct (bool_decide (e ∈ l)) eqn:Hin.
  - now rewrite Hin.
  - rewrite bool_decide_eq_true_2; [reflexivity|].
    apply elem_of_app. right. apply list_elem_of_singleton. reflexivity.
Qed.

(** X12. [changeStatus] touches one order and only adds to its history:
    whatever its arguments and outcome, the store keeps the same document
    ids, every other order is as it was, and the target keeps its id,
    items, total, payment method, address and creation time, while its old
    history is a prefix of the new one, which is longer by at most one
    entry. *)
Theorem changeStatus_frame (mail : string) (env : StatusEnv)
    (i b : string) (store : gmap string Order) :
  let store' := sr_store (changeStatus mail env i b store) in
  dom store' = dom store /\
  (forall j, j <> i -> store' !! j = store !! j) /\
  (forall o, store !! i = Some o ->
     exists o',
       store' !! i = Some o' /\
       statusHistory o `prefix_of` statusHistory o' /\
       (length (statusHistory o') <= S (length (statusHistory o)))%nat /\
       id o' = id o /\ items o' = items o /\ total o' = total o /\
       paymentMethod o' = paymentMethod o /\ address o' = address o /\
       createdAt o' = createdAt o).
Proof.
  assert (Hsame : forall o : Order,
            statusHistory o `prefix_of` statusHistory o /\
            (length (statusHistory o) <= S (length (statusHistory o)))%nat /\
            id o = id o /\ items o = items o /\ total o = total o /\
            paymentMethod o = paymentMethod o /\ address o = address o /\
            createdAt o = createdAt o).
  { intros o. repeat split; reflexivity || lia. }
  unfold changeStatus, updateDoc.
  destruct (confirm_answer env); simpl; [|now eauto 10].
  destruct (store !! i) as [o|] eqn:Hdoc; simpl; [|split; [|split]; easy].
  destruct (remote_ok env); simpl; [|rewrite Hdoc; now eauto 10].
  split; [|split].
  - apply dom_insert_lookup_L. eauto.
  - intros j Hj. now apply lookup_insert_ne.
  - intros o0 [= <-]. eexists. split; [apply lookup_insert_eq|]. simpl.
    destruct (arrayUnion_prefix
                (mkHistoryEntry b (nowISO env)
                   ("Order " +:+ formatStatus b +:+ " by admin") mail)
                (statusHistory o)) as [Hprefix Hlen].
    repeat split; assumption.
Qed.

Lemma changeStatus_frame_witness :
  let store' := sr_store (changeStatus "admin@freshmart.test"
                            OrdersSamples.accepting "o1" "cancelled"
                            OrdersSamples.one_order_store) in
  exists o',
    store' !! "o1" = Some o' /\
    statusHistory OrdersSamples.delivered_order `prefix_of` statusHistory o' /\
    total o' = 100.
Proof.
  intros store'.
  destruct (proj2 (proj2 (changeStatus_frame "admin@freshmart.test"
                            OrdersSamples.accepting "o1" "cancelled"
                            OrdersSamples.one_order_store))
              OrdersSamples.delivered_order eq_refl)
    as (o' & Hstored & Hprefix & _ & _ & _ & Htotal & _).
  exists o'. split; [exact Hstored|]. split; [exact Hprefix|].
  exact Htotal.
Defined.

(** X13. Repeating a status change with the same target and the same
    timestamp changes nothing more: [arrayUnion] finds the entry already in
    the history, so no second entry is added. *)
Theorem changeStatus_repeat (mail : string) (env : StatusEnv)
    (i b : string) (store : gmap string Order) :
  sr_store (changeStatus mail env i b
              (sr_store (changeStatus mail env i b store)))
  = sr_store (changeStatus mail env i b store).
Proof.
  unfold changeStatus, updateDoc.
  destruct (confirm_answer env); simpl; [|reflexivity].
  destruct (store !! i) as [o|] eqn:Hdoc; simpl.
  - destruct (remote_ok env); simpl.
    + rewrite lookup_insert_eq. simpl.
      now rewrite insert_insert_eq, arrayUnion_idempotent.
    + now rewrite Hdoc.
  - now rewrite Hdoc.
Qed.

End StatusChangeProperties.

Section MirrorProperties.
Import Orders OrdersSpec.





(** With a blank search, no status filter and no date range, the filter
    keeps every order. *)
Lemma blank_filters_keep_all (ui : FilterInputs) (clock : Clock)
    (orders : list Order) :
  JS.trim (JS.toLowerCase (searchInput ui)) = "" ->
  statusFilter ui = "" ->
  dateFilter ui = "" \/ dateFilter ui = "all" ->
  List.filter
    (fun order =>
       matchesSearch (JS.trim (JS.toLowerCase (searchInput ui))) order
       && matchesStatus (statusFilter ui) order
       && matchesDate (dateFilter ui) clock order)
    orders
  = orders.
Proof.
  intros -> -> Hdate.
  induction orders as [|o orders IH]; [reflexivity|].
  cbn [List.filter].
  replace (matchesDate (dateFilter ui) clock o) with true
    by (unfold matchesDate; now destruct Hdate as [-> | ->]).
  change (matchesSearch "" o) with true.
  change (matchesStatus "" o) with true.
  cbn [andb]. now rewrite IH.
Qed.

(** X15. With no filter set the table hides nothing: when the search box
    is empty or holds only white space, no status is selected and the date
    range is empty or [all], the filtered set is the whole mirror. *)
Theorem applyFilters_blank (ui : FilterInputs) (clock : Clock) (page : Page) :
  JS.trim (JS.toLowerCase (searchInput ui)) = "" ->
  statusFilter ui = "" ->
  dateFilter ui = "" \/ dateFilter ui = "all" ->
  filteredOrders (applyFilters ui clock page) = allOrders page.
Proof.
  intros Hsearch Hstatus Hdate. unfold applyFilters. simpl.
  now apply blank_filters_keep_all.
Qed.

Lemma applyFilters_blank_witness :
  let page := mkPage [OrdersSamples.order_a; OrdersSamples.order_b] [] 3
                OrdersSamples.empty_stats in
  filteredOrders
    (applyFilters (mkFilterInputs "   " "" "all") OrdersSamples.noon_clock page)
  = [OrdersSamples.order_a; OrdersSamples.order_b].
Proof.
  intros page.
  apply (applyFilters_blank (mkFilterInputs "   " "" "all")
           OrdersSamples.noon_clock page);
    [reflexivity | reflexivity | right; reflexivity].
Defined.

(** X16. What the orders export selects.  The export reads the mirror, not
    the table: the search box, the status filter and the page shown do not
    change the exported file.  For a period, it selects the orders that the
    date filter of the table would keep for the same range, except that
    orders without a creation time, which the table keeps, are left out. *)
Theorem exportOrders_selection (fmt : Z -> string) (clock : Clock)
    (isoDate period : string) (ui : FilterInputs) (n : Z) (page : Page) :
  exportOrders fmt clock isoDate period
    (changePage n (applyFilters ui clock page))
  = exportOrders fmt clock isoDate period page /\
  (forall o,
     in_period period clock o =
       matchesDate period clock o
       && match createdAt o with NoDate => false | _ => true end).
Proof.
  split; [reflexivity|].
  intros o. unfold in_period, matchesDate, truthy.
  destruct (createdAt o) as [| |ms].
  - now rewrite andb_false_r.
  - destruct (String.eqb_spec period "") as [->|H0]; [reflexivity|].
    destruct (String.eqb_spec period "all") as [->|H1]; [reflexivity|].
    simpl. now rewrite andb_true_r.
  - destruct (String.eqb_spec period "") as [->|H0]; [reflexivity|].
    destruct (String.eqb_spec period "all") as [->|H1]; [reflexivity|].
    simpl. now rewrite andb_true_r.
Qed.

(** X17. A snapshot redraws the table from scratch.  With no filter set,
    after any snapshot the table shows the first ten documents of the
    snapshot and the statistics of the whole snapshot, whatever the mirror
    held before and whatever page was shown: the view is back on page 1. *)
Theorem snapshot_redraws_table (ui : FilterInputs) (clock : Clock)
    (snap : Firestore.QuerySnapshot Order) (page : Page) :
  JS.trim (JS.toLowerCase (searchInput ui)) = "" ->
  statusFilter ui = "" ->
  dateFilter ui = "" \/ dateFilter ui = "all" ->
  let page' := (onOrdersSnapshot ui clock snap page).1 in
  currentPage page' = 1 /\
  rows (renderTable page') = take 10 (Firestore.docs snap) /\
  shownStats page' = updateStats clock (Firestore.docs snap) /\
  totalOrders (shownStats page') = Z.of_nat (length (Firestore.docs snap)).
Proof.
  intros Hsearch Hstatus Hdate page'. subst page'.
  unfold onOrdersSnapshot. cbn [fst applyFilters allOrders filteredOrders
                                  currentPage shownStats].
  split; [reflexivity|]. split; [|split].
  - rewrite renderTable_rows by (simpl; lia). simpl.
    now rewrite blank_filters_keep_all.
  - reflexivity.
  - unfold updateStats. rewrite updateStats_loop. simpl. lia.
Qed.

Lemma snapshot_redraws_table_witness :
  rows (renderTable
          (onOrdersSnapshot OrdersSamples.no_filters OrdersSamples.noon_clock
             OrdersSamples.one_more ViewSamples.long_page).1)
  = [OrdersSamples.order_c; OrdersSamples.order_a; OrdersSamples.order_b].
Proof.
  apply (proj1 (proj2 (snapshot_redraws_table OrdersSamples.no_filters
                         OrdersSamples.noon_clock OrdersSamples.one_more
                         ViewSamples.long_page eq_refl eq_refl
                         (or_intror eq_refl)))).
Defined.

End MirrorProperties.

Section UserCallableProperties.
Import Functions UserFunctions.

Ltac step_user :=
  unfold updateUser, updateUserStatus, deleteUser, verifyAdmin, raise_if,
    attempt, raise, accounts_update, accounts_delete, users_update,
    users_delete, timestamp, caller_uid, mbind, MS_bind, mret, MS_ret; simpl.

Lemma valid_status_true (status : string) :
  existsb (fun v => v === status) validStatuses = true
  <-> status ∈ validStatuses.
Proof.
  unfold validStatuses. cbn [existsb].
  rewrite !elem_of_cons, elem_of_nil, !orb_true_iff, !String.eqb_eq.
  intuition congruence.
Qed.

#[local] Arguments existsb : simpl never.

(** X18. [updateUserStatus] keeps the status and the account in step.  A
    status outside active, inactive, suspended, pending is refused with
    [invalid-argument] before anything is written.  When the call succeeds,
    the user document carries the requested status and the account is
    disabled exactly when that status is suspended or inactive. *)
Theorem updateUserStatus_contract (data : StatusData)
    (context : CallableContext) (s : Store) :
  let r := updateUserStatus data context s in
  (forall a, auth context = Some a ->
     token_role a = Some "admin" \/ token_role a = Some "super_admin" ->
     st_status data ∉ validStatuses ->
     exists msg, r = (Throw (HttpsError invalid_argument msg), s)) /\
  (forall response, r.1 = Ok response ->
     st_status data ∈ validStatuses /\
     u_status <$> users r.2 !! st_userId data = Some (st_status data) /\
     acc_disabled <$> accounts r.2 !! st_userId data
       = Some (bool_decide (st_status data = "suspended"
                            \/ st_status data = "inactive"))).
Proof.
  destruct data as [id status]. simpl. split.
  - intros a Hauth Hrole Hbad. step_user. rewrite Hauth.
    assert (Hgate : negb (role_is (token_role a) "super_admin")
                    && negb (role_is (token_role a) "admin") = false)
      by (destruct Hrole as [-> | ->]; reflexivity).
    rewrite Hgate. simpl.
    destruct (negb (truthy id) || negb (truthy status)); simpl; [eauto|].
    pose proof (valid_status_true status) as Hvalid.
    destruct (existsb (fun v => v === status) validStatuses); simpl;
      [|eauto].
    exfalso. apply Hbad, Hvalid. reflexivity.
  - intros response. step_user.
    pose proof (valid_status_true status) as Hvalid.
    destruct (auth context) as [a|]; simpl; [|discriminate].
    destruct (negb (role_is (token_role a) "super_admin")
              && negb (role_is (token_role a) "admin")); simpl;
      [discriminate|].
    destruct (negb (truthy id) || negb (truthy status)); simpl;
      [discriminate|].
    destruct (existsb (fun v => v === status) validStatuses);
      simpl; [|discriminate].
    destruct (accounts s !! id) as [account|]; simpl; [|discriminate].
    destruct (users s !! id) as [d|]; simpl; [|discriminate].
    intros _. split; [now apply Hvalid|].
    rewrite !lookup_insert_eq. simpl. split; [reflexivity|]. f_equal.
    destruct (String.eqb_spec status "suspended") as [E|Hs];
      [rewrite E; reflexivity|].
    destruct (String.eqb_spec status "inactive") as [E|Hi];
      [rewrite E; reflexivity|].
    symmetry. apply bool_decide_eq_false_2. intros [?|?]; contradiction.
Qed.

Lemma updateUserStatus_contract_witness :
  let done := updateUserStatus (mkStatusData "cust7" "suspended")
                UserFunctionsSamples.ctx_admin UserFunctionsSamples.shop in
  let refused := updateUserStatus (mkStatusData "cust7" "banned")
                   UserFunctionsSamples.ctx_admin UserFunctionsSamples.shop in
  acc_disabled <$> accounts done.2 !! "cust7" = Some true /\
  exists msg,
    refused = (Throw (HttpsError invalid_argument msg),
               UserFunctionsSamples.shop).
Proof.
  intros done refused. split.
  - apply (proj2 (updateUserStatus_contract (mkStatusData "cust7" "suspended")
                    UserFunctionsSamples.ctx_admin UserFunctionsSamples.shop)
             (mkResponse true "User status updated successfully")).
    reflexivity.
  - apply (proj1 (updateUserStatus_contract (mkStatusData "cust7" "banned")
                    UserFunctionsSamples.ctx_admin UserFunctionsSamples.shop)
             (mkAuthContext "ad3" (Some "admin")));
      [reflexivity | left; reflexivity |].
    unfold validStatuses. rewrite !elem_of_cons, elem_of_nil.
    intros [H|[H|[H|[H|[]]]]]; discriminate H.
Defined.

(** X19. [updateUser] stores whatever status it is given and never touches
    the [disabled] flag of an account: after a successful call with a
    status, the document carries that status, valid or not, while every
    account is enabled or disabled as before; so it can record suspended
    for a user whose account stays enabled. *)
Theorem updateUser_ignores_account_state (data : UpdateData)
    (context : CallableContext) (s : Store) :
  let r := updateUser data context s in
  (forall id, acc_disabled <$> accounts r.2 !! id
              = acc_disabled <$> accounts s !! id) /\
  (forall response status,
     r.1 = Ok response -> up_status data = Some status ->
     u_status <$> users r.2 !! up_userId data = Some status).
Proof.
  destruct data as [id name phone status]. simpl.
  assert (Hflag : forall (a : Account) (n : string) (j : string),
            accounts s !! id = Some a ->
            acc_disabled <$>
              <[id := mkAccount (acc_email a) n (acc_disabled a)]> (accounts s)
                !! j
            = acc_disabled <$> accounts s !! j).
  { intros a n j Ha. destruct (decide (id = j)) as [<-|Hne].
    - now rewrite lookup_insert_eq, Ha.
    - now rewrite lookup_insert_ne. }
  split.
  - intros j. step_user.
    destruct (auth context) as [a|]; simpl; [|reflexivity].
    destruct (negb (role_is (token_role a) "super_admin")
              && negb (role_is (token_role a) "admin")); simpl;
      [reflexivity|].
    destruct (truthy id); simpl; [|reflexivity].
    destruct name as [n|]; simpl.
    + destruct (truthy n); simpl.
      * destruct (accounts s !! id) as [account|] eqn:Hacc; simpl;
          [|reflexivity].
        destruct (users s !! id); simpl; now apply Hflag.
      * destruct (users s !! id); reflexivity.
    + destruct (users s !! id); reflexivity.
  - intros response st. step_user.
    destruct (auth context) as [a|]; simpl; [|discriminate].
    destruct (negb (role_is (token_role a) "super_admin")
              && negb (role_is (token_role a) "admin")); simpl;
      [discriminate|].
    destruct (truthy id); simpl; [|discriminate].
    destruct name as [n|]; simpl.
    + destruct (truthy n); simpl.
      * destruct (accounts s !! id) as [account|]; simpl; [|discriminate].
        destruct (users s !! id); simpl; [|discriminate].
        intros _ [= ->]. now rewrite lookup_insert_eq.
      * destruct (users s !! id); simpl; [|discriminate].
        intros _ [= ->]. now rewrite lookup_insert_eq.
    + destruct (users s !! id); simpl; [|discriminate].
      intros _ [= ->]. now rewrite lookup_insert_eq.
Qed.

Lemma updateUser_ignores_account_state_witness :
  let r := updateUser (mkUpdateData "cust7" None None (Some "suspended"))
             UserFunctionsSamples.ctx_admin UserFunctionsSamples.shop in
  u_status <$> users r.2 !! "cust7" = Some "suspended" /\
  acc_disabled <$> accounts r.2 !! "cust7" = Some false.
Proof.
  intros r.
  destruct (updateUser_ignores_account_state
              (mkUpdateData "cust7" None None (Some "suspended"))
              UserFunctionsSamples.ctx_admin UserFunctionsSamples.shop)
    as [Hflags Hstatus].
  split.
  - apply (Hstatus (mkResponse true "User updated successfully") "suspended");
      reflexivity.
  - fold r in Hflags. rewrite Hflags. reflexivity.
Defined.



(** X21. The role checks of the page and of the functions agree.  For an
    identity whose token carries the role claim [r]: [checkAdminRole]
    accepts it exactly when [verifyAdminRole] reports an admin and exactly
    when [verifyAdmin] lets the call through; and it reports a super admin
    exactly when [verifySuperAdmin] lets the call through. *)
Theorem role_checks_agree (u : Auth.FirebaseUser) (r : option string)
    (s : Store) (backend : Backend) :
  Auth.getIdTokenResult u = Auth.Resolved r ->
  let context := mkContext (Some (mkAuthContext (Auth.uid u) r)) in
  (is_Some (Auth.checkAdminRole (Some u))
     <-> isAdmin (verifyAdminRole context) = true) /\
  (is_Some (Auth.checkAdminRole (Some u))
     <-> verifyAdmin context s = (Ok true, s)) /\
  (Auth.isSuperAdmin <$> Auth.checkAdminRole (Some u) = Some true
     <-> verifySuperAdmin context backend = (Ok true, backend)) /\
  (ri_uid (verifyAdminRole context)
     = Auth.ad_uid <$> Auth.checkAdminRole (Some u)).
Proof.
  intros Hfetch context. subst context.
  unfold Auth.checkAdminRole, verifyAdminRole, verifyAdmin, verifySuperAdmin,
    raise, throw. rewrite Hfetch. simpl.
  change (Auth.role_is r Auth.SUPER_ADMIN) with (role_is r "super_admin").
  change (Auth.role_is r Auth.ADMIN) with (role_is r "admin").
  destruct (role_is r "super_admin") eqn:Hsuper;
    destruct (role_is r "admin") eqn:Hadmin; simpl;
    repeat split; intros H;
    try reflexivity; try discriminate H; try (now eexists);
    try (now destruct H as [? [=]]).
Qed.

Lemma role_checks_agree_witness :
  let u := Auth.mkUser "ad3" "ad3@freshmart.test" (Some "admin") true in
  is_Some (Auth.checkAdminRole (Some u)) /\
  verifyAdmin UserFunctionsSamples.ctx_admin UserFunctionsSamples.shop
    = (Ok true, UserFunctionsSamples.shop) /\
  verifySuperAdmin UserFunctionsSamples.ctx_admin FunctionsSamples.two_supers
    <> (Ok true, FunctionsSamples.two_supers).
Proof.
  intros u.
  destruct (role_checks_agree u (Some "admin") UserFunctionsSamples.shop
              FunctionsSamples.two_supers eq_refl)
    as (_ & Hadmin & Hsuper & _).
  assert (Hin : is_Some (Auth.checkAdminRole (Some u))) by (eexists; reflexivity).
  split; [exact Hin|]. split.
  - now apply Hadmin.
  - intros Hcall. apply Hsuper in Hcall. discriminate Hcall.
Defined.

End UserCallableProperties.
